(** * GurgenBudgetTracker: analytics, balance and usage-counter logic

    A shallow embedding of the non-GUI logic of [src/main.py]:

    - the usage counters of the label and type catalogs
      ([Transactions.update_label_count], [update_type_count],
      [decrement_label_count], [decrement_type_count],
      [update_usage_counts], [decrement_usage_counts]);
    - the period filter and the day-count denominator
      ([Analytics.get_filtered_transactions], [get_days_in_period]);
    - the aggregator ([Analytics.calculate_label_stats],
      [calculate_type_stats]) and the balance calculator
      ([Analytics.calculate_totals], [Dashboard.calculate_all_time_totals]).

    Data is kept the way the program has it: a CSV row is a list of strings,
    a CSV file is a list of rows (or is missing), a Python [dict] is an
    association list in insertion order, a naive [datetime] is a day ordinal
    with a microsecond of the day.

    Numbers.  An amount is a binary64 float, as in Python: the [float] of
    the Standard Library's [Floats], with its rounding, its infinities and
    its NaN.  Sums, quotients and comparisons are the primitive ones, in the
    order in which the program applies them. *)

From Stdlib Require Import Floats.
From Stdlib Require Import ZArith Lia List String Ascii Bool.
From Stdlib Require Import Permutation Sorted DecimalString DecimalPos DecimalZ.
Import ListNotations.

Local Open Scope string_scope.
Local Open Scope list_scope.
Local Open Scope Z_scope.

(** A row as [csv.reader] yields it. *)
Definition row := list string.

(** A CSV file on disk: [None] when it does not exist, otherwise its rows in
    file order (a blank line is the empty row). *)
Definition csv_file := option (list row).

(** [transaction[i]]; out of range is [IndexError], here [None]. *)
Definition field (r : row) (i : nat) : option string := nth_error r i.

(** ** The Python library functions the program calls *)

Module Py.

(** [int(s)] on an optionally signed run of ASCII digits.  (CPython also
    accepts a leading plus sign, surrounding blanks and underscores; the
    theorems below are stated for any parser, this one serves the
    examples.) *)
Definition int (s : string) : option Z :=
  option_map Z.of_int (NilZero.int_of_string s).

(** [str(n)] for an integer [n]. *)
Definition str (n : Z) : string := NilZero.string_of_int (Z.to_int n).

Definition digit_of (a : ascii) : option Z :=
  let n := nat_of_ascii a in
  if (48 <=? n)%nat && (n <=? 57)%nat then Some (Z.of_nat (n - 48)) else None.

Fixpoint digits_from (acc : Z) (s : string) : option Z :=
  match s with
  | EmptyString => Some acc
  | String a s' =>
      match digit_of a with
      | Some d => digits_from (10 * acc + d) s'
      | None => None
      end
  end.

(** A non-empty run of digits. *)
Definition number_of_digits (s : string) : option Z :=
  match s with
  | EmptyString => None
  | _ => digits_from 0 s
  end.

Fixpoint split_on (sep : ascii) (s : string) : list string :=
  match s with
  | EmptyString => [EmptyString]
  | String a s' =>
      if Ascii.eqb a sep then EmptyString :: split_on sep s'
      else match split_on sep s' with
           | [] => [String a EmptyString]
           | w :: ws => String a w :: ws
           end
  end.

Definition is_digit (a : ascii) : bool :=
  match digit_of a with
  | Some _ => true
  | None => false
  end.

(** The binary64 nearest to [n / d], for positive [n] and [d], ties to the
    even mantissa: the quotient is taken with 55 bits and more, a last bit
    records whether anything is left, and [binary_normalize] rounds. *)
Definition nearest (n d : Z) : PrimFloat.float :=
  let k := Z.max 0 (Z.log2 d - Z.log2 n + 56) in
  let q := (n * 2 ^ k) / d in
  let sticky := if (n * 2 ^ k) mod d =? 0 then 0 else 1 in
  SF2Prim (binary_normalize prec emax (2 * q + sticky) (- k - 1) false).

(** [float(n)] of an integer, the conversion of the [int] operand of
    [total / days_in_period].  (CPython raises [OverflowError] from 2^1024
    on; a day count is far from there.) *)
Definition float_of_int (n : Z) : PrimFloat.float :=
  match n with
  | Z0 => 0%float
  | Zpos _ => nearest n 1
  | Zneg _ => (- nearest (- n) 1)%float
  end.

(** The blanks [float] strips: space, tab, line feed, vertical tab, form
    feed, carriage return. *)
Definition is_space (a : ascii) : bool :=
  let n := nat_of_ascii a in
  (n =? 32)%nat || ((9 <=? n)%nat && (n <=? 13)%nat).

Fixpoint lstrip (s : list ascii) : list ascii :=
  match s with
  | a :: s' => if is_space a then lstrip s' else s
  | [] => []
  end.

Definition strip (s : list ascii) : list ascii :=
  rev (lstrip (rev (lstrip s))).

Definition is_underscore (a : ascii) : bool := Ascii.eqb a "_".

(** An underscore is allowed between two digits only; [prev] is the
    character before. *)
Fixpoint drop_underscores (prev : ascii) (s : list ascii)
  : option (list ascii) :=
  match s with
  | [] => if is_underscore prev then None else Some []
  | a :: s' =>
      if is_underscore a
      then if is_digit prev then drop_underscores a s' else None
      else if is_underscore prev && negb (is_digit a) then None
           else option_map (cons a) (drop_underscores a s')
  end.

(** The digits a string starts with, and what follows them. *)
Fixpoint digits (s : list ascii) : list Z * list ascii :=
  match s with
  | a :: s' =>
      match digit_of a with
      | Some d => let '(ds, rest) := digits s' in (d :: ds, rest)
      | None => ([], s)
      end
  | [] => ([], [])
  end.

Definition number (ds : list Z) : Z :=
  fold_left (fun acc d => 10 * acc + d) ds 0.

Definition lower (a : ascii) : ascii :=
  let n := nat_of_ascii a in
  if (65 <=? n)%nat && (n <=? 90)%nat then ascii_of_nat (n + 32) else a.

Definition sign (s : list ascii) : bool * list ascii :=
  match s with
  | "-"%char :: s' => (true, s')
  | "+"%char :: s' => (false, s')
  | _ => (false, s)
  end.

(** Nothing, or [e] with an optionally signed run of digits. *)
Definition exponent (s : list ascii) : option Z :=
  match s with
  | [] => Some 0
  | a :: s' =>
      if Ascii.eqb (lower a) "e"
      then let '(neg, s'') := sign s' in
           match digits s'' with
           | ((_ :: _) as ds, []) => Some (if neg then - number ds else number ds)
           | _ => None
           end
      else None
  end.

(** The float nearest to [m * 10 ^ e10], for [m] not negative. *)
Definition scaled (m e10 : Z) : PrimFloat.float :=
  if m =? 0 then 0%float
  else if 0 <=? e10 then nearest (m * 10 ^ e10) 1
       else nearest m (10 ^ (- e10)).

(** [inf], [infinity] and [nan] in any case, or digits with an optional
    point and an optional exponent, one digit at least. *)
Definition unsigned (s : list ascii) : option PrimFloat.float :=
  let word := string_of_list_ascii (map lower s) in
  if (word =? "inf")%string || (word =? "infinity")%string then Some infinity
  else if (word =? "nan")%string then Some nan
  else
    let '(ip, rest) := digits s in
    let '(fp, rest') :=
      match rest with
      | "."%char :: r => digits r
      | _ => ([], rest)
      end in
    match ip ++ fp with
    | [] => None
    | ds =>
        match exponent rest' with
        | Some e => Some (scaled (number ds) (e - Z.of_nat (List.length fp)))
        | None => None
        end
    end.

(** [sorted(items, key=lambda x: x[1], reverse=True)] by insertion: an item
    goes in front of the first one it is not smaller than, so items of equal
    amount keep their order.  CPython compares with [<] alone, as here.  On
    amounts without a NaN there is one stable descending arrangement,
    whatever the algorithm; with a NaN among them CPython's merge sort and
    this insertion need not agree, and no statement below depends on the
    order then. *)
Fixpoint insert_desc (x : string * PrimFloat.float)
         (l : list (string * PrimFloat.float))
  : list (string * PrimFloat.float) :=
  match l with
  | [] => [x]
  | y :: l' =>
      if (snd x <? snd y)%float then y :: insert_desc x l'
      else x :: y :: l'
  end.

Definition sorted (items : list (string * PrimFloat.float))
  : list (string * PrimFloat.float) :=
  fold_right insert_desc [] items.

(** [float(s)] on a string of ASCII characters: blanks around it are
    stripped, underscores between digits dropped, and the decimal is rounded
    to the nearest binary64 (an overflow gives an infinity); anything else
    is [ValueError], here [None].  (CPython also takes the digits and
    blanks of other scripts.) *)
Definition float (s : string) : option PrimFloat.float :=
  match drop_underscores " " (strip (list_ascii_of_string s)) with
  | None => None
  | Some t =>
      let '(neg, u) := sign t in
      option_map (fun x => if neg then (- x)%float else x) (unsigned u)
  end.

(** The proleptic Gregorian ordinal of CPython's [datetime.py]
    ([_is_leap], [_days_before_year], [_days_in_month],
    [_days_before_month], [_ymd2ord]): 1 is 01/01/0001. *)
Definition is_leap (y : Z) : bool :=
  (y mod 4 =? 0) && (negb (y mod 100 =? 0) || (y mod 400 =? 0)).

Definition days_before_year (y : Z) : Z :=
  let p := y - 1 in p * 365 + p / 4 - p / 100 + p / 400.

Definition days_in_month (y m : Z) : Z :=
  if m =? 2 then (if is_leap y then 29 else 28)
  else if (m =? 4) || (m =? 6) || (m =? 9) || (m =? 11) then 30
  else 31.

Definition days_before_month (y m : Z) : Z :=
  nth (Z.to_nat m) [0; 0; 31; 59; 90; 120; 151; 181; 212; 243; 273; 304; 334] 0
  + (if (2 <? m) && is_leap y then 1 else 0).

Definition ymd2ord (y m d : Z) : Z :=
  days_before_year y + days_before_month y m + d.

Definition short_digits (s : string) : option Z :=
  if (String.length s <=? 2)%nat then number_of_digits s else None.

Definition year_digits (s : string) : option Z :=
  if (String.length s =? 4)%nat then number_of_digits s else None.

(** [datetime.strptime(s, "%d/%m/%Y")], as the ordinal of the parsed day
    (the time of the result is midnight); a string that does not match, or
    names no calendar day, is [ValueError], here [None].  (CPython's %d
    also accepts a blank before a single digit.) *)
Definition strptime_dmy (s : string) : option Z :=
  match split_on "/" s with
  | [ds; ms; ys] =>
      match short_digits ds, short_digits ms, year_digits ys with
      | Some d, Some m, Some y =>
          if (1 <=? y) && (1 <=? m) && (m <=? 12)
             && (1 <=? d) && (d <=? days_in_month y m)
          then Some (ymd2ord y m d) else None
      | _, _, _ => None
      end
  | _ => None
  end.

End Py.

(** ** Naive datetimes *)

Record datetime := mkdt { ordinal : Z; micros : Z }.

Definition US_PER_DAY : Z := 86400000000.

(** The datetime [strptime] returns for a day: midnight. *)
Definition midnight (day : Z) : datetime := mkdt day 0.

(** [dt.replace(hour=0, minute=0, second=0, microsecond=0)]. *)
Definition start_of_day (dt : datetime) : datetime := midnight (ordinal dt).

(** [dt - timedelta(days=n)].  (Python raises [OverflowError] when the
    result falls before year 1; the clock is far from there.) *)
Definition minus_days (dt : datetime) (n : Z) : datetime :=
  mkdt (ordinal dt - n) (micros dt).

Definition to_micros (dt : datetime) : Z := ordinal dt * US_PER_DAY + micros dt.

(** [a <= b] on datetimes: by day, then by time of day. *)
Definition dt_leb (a b : datetime) : bool :=
  (ordinal a <? ordinal b) || ((ordinal a =? ordinal b) && (micros a <=? micros b)).

(** [a >= b]. *)
Definition dt_geb (a b : datetime) : bool := dt_leb b a.

(** [(a - b).days]: a [timedelta] is normalised with its seconds and
    microseconds non-negative, so the days are the floor. *)
Definition days_between (a b : datetime) : Z :=
  (to_micros a - to_micros b) / US_PER_DAY.

(** [max(a, b)] returns [a] unless [b > a]. *)
Definition dt_max (a b : datetime) : datetime := if dt_leb b a then a else b.

(** [min(a, b)] returns [a] unless [b < a]. *)
Definition dt_min (a b : datetime) : datetime := if dt_leb a b then a else b.

(** [min(dates)] and [max(dates)] of a non-empty list. *)
Definition min_of (d : datetime) (ds : list datetime) : datetime :=
  fold_left dt_min ds d.

Definition max_of (d : datetime) (ds : list datetime) : datetime :=
  fold_left dt_max ds d.

(** ** Amounts

    Python compares floats with [<?], [<=?] and [=?]; each is false as soon
    as an operand is a NaN. *)

(** Python's accumulation [total = 0] and then [total += a] for each [a]. *)
Definition fsum (l : list float) : float := fold_left PrimFloat.add l 0%float.

(** No amount of the items is a NaN. *)
Definition no_nan (items : list (string * float)) : Prop :=
  Forall (fun x => is_nan (snd x) = false) items.

(** Descending by amount: every item is at least as large as each item
    after it.  An arrangement with a NaN in it, and another item, is not
    descending. *)
Definition descending (items : list (string * float)) : Prop :=
  StronglySorted (fun x y => (snd y <=? snd x)%float = true) items.

(** An item of amount [v]. *)
Definition tied (v : float) (x : string * float) : bool := (snd x =? v)%float.



(** The place of a float that is no NaN in the order of the floats: the
    infinities outermost, the zeros in the middle, the finite floats by
    exponent and then by mantissa. *)
Definition sf_key (f : spec_float) : Z * Z * Z :=
  match f with
  | S754_nan => (0, 0, 0)
  | S754_zero _ => (0, 0, 0)
  | S754_infinity true => (-2, 0, 0)
  | S754_infinity false => (2, 0, 0)
  | S754_finite true m e => (-1, - e, - Zpos m)
  | S754_finite false m e => (1, e, Zpos m)
  end.

Definition float_key (x : float) : Z * Z * Z := sf_key (Prim2SF x).

Definition lex_compare (a b : Z * Z * Z) : comparison :=
  match fst (fst a) ?= fst (fst b) with
  | Eq => match snd (fst a) ?= snd (fst b) with
          | Eq => snd a ?= snd b
          | c => c
          end
  | c => c
  end.

Definition lex_le (a b : Z * Z * Z) : Prop :=
  fst (fst a) < fst (fst b)
  \/ (fst (fst a) = fst (fst b)
      /\ (snd (fst a) < snd (fst b)
          \/ (snd (fst a) = snd (fst b) /\ snd a <= snd b))).

(** ** The interface to the Python library

    The program parses every number and date it reads with [int], [float]
    and [datetime.strptime], prints counters with [str], divides a float by
    an [int] and ranks with [sorted].  The embedding is written against this
    interface.  Its laws: a printed integer reads back; [sorted] returns the
    items it was given, each once; and on amounts that can be compared, none
    being a NaN, it returns them in descending order, items of one amount in
    the order in which they came (the sort is stable). *)

Class PyLib := {
  py_int : string -> option Z;
  py_str : Z -> string;
  py_float : string -> option float;
  py_float_of_int : Z -> float;
  py_strptime : string -> option Z;
  py_sorted : list (string * float) -> list (string * float);
  py_int_str : forall n, py_int (py_str n) = Some n;
  py_sorted_perm : forall items, Permutation (py_sorted items) items;
  py_sorted_descending :
    forall items, no_nan items -> descending (py_sorted items);
  py_sorted_stable :
    forall items v, no_nan items ->
                    filter (tied v) (py_sorted items) = filter (tied v) items
}.

(** Exceptions that escape a function of the program, on a file that is
    missing or that [csv.reader] reads to its end as a list of rows.  (A
    file that cannot be opened or decoded is outside the embedding.) *)
Inductive exn := StopIteration | IndexError.

Inductive outcome (A : Type) :=
| Returned (a : A)
| Raised (e : exn).

Arguments Returned {A} a.
Arguments Raised {A} e.

(** [row and len(row) >= n]. *)
Definition at_least (n : nat) (r : row) : bool := (n <=? List.length r)%nat.

(** ** Usage counters of the catalogs ([Transactions]) *)

Record catalogs := mkcats {
  expense_labels : csv_file;
  expense_types : csv_file;
  income_labels : csv_file;
  income_types : csv_file
}.

(** The files the program works on. *)
Record store := mkstore {
  transactions_database : csv_file;
  cats : catalogs
}.

Section Counters.
Context {L : PyLib}.

(** The scan [for i, (row_type, row_label, count) in enumerate(labels)] of
    [update_label_count] and [decrement_label_count], [f] being what the
    function does to the count of the row it finds.  A row that is not a
    triple fails to unpack and a count that is not an integer fails
    [int]: [None].  The scan stops ([break]) at the first match. *)
Fixpoint scan_labels (f : Z -> Z) (type_name label_name : string)
         (labels : list row) : option (list row) :=
  match labels with
  | [] => Some []
  | [row_type; row_label; count] :: rest =>
      if (row_type =? type_name)%string && (row_label =? label_name)%string
      then match py_int count with
           | Some c => Some ([row_type; row_label; py_str (f c)] :: rest)
           | None => None
           end
      else option_map (cons [row_type; row_label; count])
                      (scan_labels f type_name label_name rest)
  | _ :: _ => None
  end.

(** The same scan over pairs, [for i, (row_type, count) in
    enumerate(types)]. *)
Fixpoint scan_types (f : Z -> Z) (type_name : string)
         (types : list row) : option (list row) :=
  match types with
  | [] => Some []
  | [row_type; count] :: rest =>
      if (row_type =? type_name)%string
      then match py_int count with
           | Some c => Some ([row_type; py_str (f c)] :: rest)
           | None => None
           end
      else option_map (cons [row_type; count]) (scan_types f type_name rest)
  | _ :: _ => None
  end.

(** Read the rows with enough fields, scan, write back.  Any exception
    (no file, a row that does not unpack, a count that is no integer) is
    caught and printed before anything is written: the file stays as it
    was. *)
Definition rewrite_file (n : nat) (scan : list row -> option (list row))
           (file : csv_file) : csv_file :=
  match file with
  | None => None
  | Some rows =>
      match scan (filter (at_least n) rows) with
      | Some rows' => Some rows'
      | None => Some rows
      end
  end.

Definition update_label_count (labels_file : csv_file)
           (type_name label_name : string) : csv_file :=
  rewrite_file 3 (scan_labels (fun count => count + 1) type_name label_name)
               labels_file.

Definition update_type_count (types_file : csv_file)
           (type_name : string) : csv_file :=
  rewrite_file 2 (scan_types (fun count => count + 1) type_name) types_file.

Definition decrement_label_count (labels_file : csv_file)
           (type_name label_name : string) : csv_file :=
  rewrite_file 3 (scan_labels (fun count => Z.max 0 (count - 1))
                              type_name label_name)
               labels_file.

Definition decrement_type_count (types_file : csv_file)
           (type_name : string) : csv_file :=
  rewrite_file 2 (scan_types (fun count => Z.max 0 (count - 1)) type_name)
               types_file.

Definition update_usage_counts (flow_type label_name type_name : string)
           (c : catalogs) : catalogs :=
  if (flow_type =? "Expense")%string
  then mkcats (update_label_count (expense_labels c) type_name label_name)
              (update_type_count (expense_types c) type_name)
              (income_labels c) (income_types c)
  else mkcats (expense_labels c) (expense_types c)
              (update_label_count (income_labels c) type_name label_name)
              (update_type_count (income_types c) type_name).

Definition decrement_usage_counts (flow_type label_name type_name : string)
           (c : catalogs) : catalogs :=
  if (flow_type =? "Expense")%string
  then mkcats (decrement_label_count (expense_labels c) type_name label_name)
              (decrement_type_count (expense_types c) type_name)
              (income_labels c) (income_types c)
  else mkcats (expense_labels c) (expense_types c)
              (decrement_label_count (income_labels c) type_name label_name)
              (decrement_type_count (income_types c) type_name).

(** [del transactions[i]]. *)
Definition del_at {A} (i : nat) (l : list A) : list A :=
  firstn i l ++ skipn (S i) l.

(** [Transactions.delete_transaction], once the user has confirmed, with
    [selected] the index of the chosen line in display order (newest
    first).  A missing or empty log raises inside the [try] and nothing is
    written; an index past the end does nothing. *)
Definition delete_transaction (selected : nat) (st : store) : store :=
  match transactions_database st with
  | None => st
  | Some [] => st
  | Some (header :: rows) =>
      let transactions := rev (filter (at_least 5) rows) in
      match nth_error transactions selected with
      | None => st
      | Some transaction_to_delete =>
          let flow_type := nth 0 transaction_to_delete "" in
          let label_name := nth 1 transaction_to_delete "" in
          let type_name := nth 3 transaction_to_delete "" in
          mkstore (Some (header :: rev (del_at selected transactions)))
                  (decrement_usage_counts flow_type label_name type_name
                                          (cats st))
      end
  end.

(** What every reader of a labels file keeps of it, and of a types
    file. *)
Definition label_rows (f : csv_file) : list row :=
  match f with
  | None => []
  | Some rows => filter (at_least 3) rows
  end.

Definition type_rows (f : csv_file) : list row :=
  match f with
  | None => []
  | Some rows => filter (at_least 2) rows
  end.

(** The key of a labels row is its (owning type, label name) pair, the key
    of a types row its name. *)
Definition label_key (type_name label_name : string) (r : row) : bool :=
  match r with
  | row_type :: row_label :: _ =>
      (row_type =? type_name)%string && (row_label =? label_name)%string
  | _ => false
  end.

Definition type_key (type_name : string) (r : row) : bool :=
  match r with
  | row_type :: _ => (row_type =? type_name)%string
  | [] => false
  end.

(** The usage count a row carries. *)
Definition label_count (r : row) : option Z :=
  match r with
  | [_; _; count] => py_int count
  | _ => None
  end.

Definition type_count (r : row) : option Z :=
  match r with
  | [_; count] => py_int count
  | _ => None
  end.

(** A well-formed labels row is a triple, a well-formed types row a
    pair. *)
Definition is_triple (r : row) : bool := (List.length r =? 3)%nat.
Definition is_pair (r : row) : bool := (List.length r =? 2)%nat.

(** The two catalogs of a flow, and those of the other flow. *)
Definition labels_of (flow_type : string) (c : catalogs) : csv_file :=
  if (flow_type =? "Expense")%string then expense_labels c else income_labels c.

Definition types_of (flow_type : string) (c : catalogs) : csv_file :=
  if (flow_type =? "Expense")%string then expense_types c else income_types c.

Definition other_labels_of (flow_type : string) (c : catalogs) : csv_file :=
  if (flow_type =? "Expense")%string then income_labels c else expense_labels c.

Definition other_types_of (flow_type : string) (c : catalogs) : csv_file :=
  if (flow_type =? "Expense")%string then income_types c else expense_types c.

End Counters.

(** ** The period filter and the day count ([Analytics]) *)

Section Periods.
Context {L : PyLib}.

(** The cutoff chain of [get_filtered_transactions]; [None] is its final
    [else]. *)
Definition cutoff_date (period : string) (current_date : datetime)
  : option datetime :=
  if (period =? "Today")%string then Some (start_of_day current_date)
  else if (period =? "Last 7 days")%string then Some (minus_days current_date 7)
  else if (period =? "Last 30 days")%string then Some (minus_days current_date 30)
  else if (period =? "Last 12 months")%string then Some (minus_days current_date 365)
  else None.

(** The calendar day in the date field of a row, when it has one that
    parses. *)
Definition row_day (r : row) : option Z :=
  match field r 4 with
  | Some s => py_strptime s
  | None => None
  end.

(** [datetime.strptime(transaction[4], "%d/%m/%Y")] on a row that has the
    field. *)
Definition row_date (r : row) : option datetime :=
  option_map midnight (row_day r).

(** The test [transaction_date >= cutoff_date] under its [try]: a date that
    does not parse skips the row. *)
Definition on_or_after (cutoff : datetime) (transaction : row) : bool :=
  match row_date transaction with
  | Some transaction_date => dt_geb transaction_date cutoff
  | None => false
  end.

(** [Analytics.get_filtered_transactions], on the state of the log file
    and the reading of the clock.  A file without its first line raises at
    [next(reader)]. *)
Definition get_filtered_transactions (log : csv_file) (now : datetime)
           (period : string) : outcome (list row) :=
  match log with
  | None => Returned []
  | Some [] => Raised StopIteration
  | Some (_ :: rows) =>
      let all_transactions := filter (at_least 5) rows in
      if (period =? "All Time")%string then Returned all_transactions
      else match cutoff_date period now with
           | None => Returned all_transactions
           | Some cutoff => Returned (filter (on_or_after cutoff) all_transactions)
           end
  end.

(** The dates that parse, in order. *)
Fixpoint parsed_dates (rows : list row) : list datetime :=
  match rows with
  | [] => []
  | r :: rest =>
      match row_date r with
      | Some d => d :: parsed_dates rest
      | None => parsed_dates rest
      end
  end.

(** The loop over [transactions] in the All Time branch of
    [get_days_in_period]: [transaction[4]] is outside the [try]'s reach
    when the row is too short ([IndexError] is not caught). *)
Fixpoint strptime_all (transactions : list row) : outcome (list datetime) :=
  match transactions with
  | [] => Returned []
  | t :: rest =>
      match field t 4 with
      | None => Raised IndexError
      | Some s =>
          match strptime_all rest with
          | Raised e => Raised e
          | Returned dates =>
              Returned (match py_strptime s with
                        | Some d => midnight d :: dates
                        | None => dates
                        end)
          end
      end
  end.

(** [Analytics.get_days_in_period]. *)
Definition get_days_in_period (log : csv_file) (now : datetime)
           (period : string) (transactions : list row) : outcome Z :=
  if (period =? "Today")%string then Returned 1
  else
    match log with
    | None => Returned 1
    | Some [] => Raised StopIteration
    | Some (_ :: rows) =>
        match parsed_dates (filter (at_least 5) rows) with
        | [] => Returned 1
        | d :: ds =>
            let earliest_transaction_date := min_of d ds in
            let finish theoretical_start :=
              let actual_start_date :=
                dt_max theoretical_start earliest_transaction_date in
              let days := days_between now actual_start_date + 1 in
              Returned (Z.max 1 days) in
            if (period =? "Last 7 days")%string then finish (minus_days now 7)
            else if (period =? "Last 30 days")%string then finish (minus_days now 30)
            else if (period =? "Last 12 months")%string then finish (minus_days now 365)
            else if (period =? "All Time")%string then
              match transactions with
              | [] => Returned 1
              | _ :: _ =>
                  match strptime_all transactions with
                  | Raised e => Raised e
                  | Returned [] => Returned 1
                  | Returned (e :: es) =>
                      let min_date := min_of e es in
                      let max_date := max_of e es in
                      let days := days_between max_date min_date + 1 in
                      Returned (Z.max 1 days)
                  end
              end
            else Returned 1
        end
    end.

End Periods.

(** ** The aggregator and the balance calculator *)

Local Open Scope float_scope.

(** One line of statistics: name, total, percentage. *)
Definition stat := (string * float * float)%type.

Definition stat_name (s : stat) : string := fst (fst s).
Definition stat_total (s : stat) : float := snd (fst s).
Definition stat_percentage (s : stat) : float := snd s.

Section Aggregator.
Context {L : PyLib}.

(** [d[k] = d.get(k, 0) + amount] on a dict kept in insertion order. *)
Fixpoint dict_add (k : string) (amount : float) (d : list (string * float))
  : list (string * float) :=
  match d with
  | [] => [(k, 0 + amount)]
  | (k', v) :: d' =>
      if (k' =? k)%string then (k', v + amount) :: d'
      else (k', v) :: dict_add k amount d'
  end.

(** One turn of the grouping loop; [key] is the column grouped on. *)
Definition group_step (key : nat) (flow_type : string)
           (st : list (string * float) * float) (transaction : row)
  : list (string * float) * float :=
  if at_least 5 transaction && (nth 0 transaction "" =? flow_type)%string
  then match py_float (nth 2 transaction "") with
       | Some amount =>
           (dict_add (nth key transaction "") amount (fst st), snd st + amount)
       | None => st
       end
  else st.

Definition group_loop (key : nat) (flow_type : string) (transactions : list row)
  : list (string * float) * float :=
  fold_left (group_step key flow_type) transactions ([], 0).

(** [(amount / total_amount * 100) if total_amount > 0 else 0]: the
    comparison is false for a total that is a NaN. *)
Definition percentage_of (total_amount amount : float) : float :=
  if 0 <? total_amount then amount / total_amount * 100 else 0.

(** The two statistics functions differ in the column they group on. *)
Definition group_stats (key : nat) (transactions : list row)
           (flow_type : string) : list stat :=
  let '(totals, total_amount) := group_loop key flow_type transactions in
  map (fun '(name, amount) => (name, amount, percentage_of total_amount amount))
      (firstn 5 (py_sorted totals)).

(** [Analytics.calculate_label_stats]. *)
Definition calculate_label_stats (transactions : list row)
           (flow_type : string) : list stat :=
  group_stats 1 transactions flow_type.

(** [Analytics.calculate_type_stats]. *)
Definition calculate_type_stats (transactions : list row)
           (flow_type : string) : list stat :=
  group_stats 3 transactions flow_type.

(** One turn of the loop of [calculate_totals]: a row too short for
    [transaction[0]] or [transaction[2]], or with an amount [float]
    rejects, is skipped. *)
Definition totals_step (st : float * float) (transaction : row)
  : float * float :=
  match field transaction 0, field transaction 2 with
  | Some flow_type, Some s =>
      match py_float s with
      | Some amount =>
          if (flow_type =? "Expense")%string then (fst st + amount, snd st)
          else if (flow_type =? "Income")%string then (fst st, snd st + amount)
          else st
      | None => st
      end
  | _, _ => st
  end.

(** [Analytics.calculate_totals]: (total expenses, total income). *)
Definition calculate_totals (transactions : list row) : float * float :=
  fold_left totals_step transactions (0, 0).

(** [Dashboard.calculate_all_time_totals], on the state of the log file. *)
Definition calculate_all_time_totals (log : csv_file)
  : outcome (float * float) :=
  match log with
  | None => Returned (0, 0)
  | Some [] => Raised StopIteration
  | Some (_ :: rows) =>
      Returned (fold_left totals_step (filter (at_least 5) rows) (0, 0))
  end.

End Aggregator.

(** ** Vocabulary of the properties

    What the statements below are phrased in: minimum and maximum as
    relations, the window of a period, the transactions of a flow and their
    groups. *)

Local Open Scope Z_scope.

(** [d] is the earliest (latest) of the dates [ds]. *)
Definition is_earliest (d : datetime) (ds : list datetime) : Prop :=
  In d ds /\ forall x, In x ds -> dt_leb d x = true.

Definition is_latest (d : datetime) (ds : list datetime) : Prop :=
  In d ds /\ forall x, In x ds -> dt_leb x d = true.

(** The nominal window of the three rolling periods, in days. *)
Definition window_days (period : string) : option Z :=
  if (period =? "Last 7 days")%string then Some 7
  else if (period =? "Last 30 days")%string then Some 30
  else if (period =? "Last 12 months")%string then Some 365
  else None.

(** Every row a function returned satisfies [P]. *)
Definition all_returned (P : row -> Prop) (out : outcome (list row)) : Prop :=
  match out with
| Returned rows => Forall P rows
| Raised _ => False
  end.

(** The five selectors of the period box. *)
Definition known_period (period : string) : bool :=
  existsb (String.eqb period)
          ["Today"; "Last 7 days"; "Last 30 days"; "Last 12 months"; "All Time"].

(** The two flows, and the name a row carries for each. *)
Inductive flow := Expense | Income.

Definition flow_name (f : flow) : string :=
  match f with
  | Expense => "Expense"
  | Income => "Income"
  end.

(** The total of a flow in the pair the balance calculator returns. *)
Definition total_for (f : flow) (totals : float * float) : float :=
  match f with
  | Expense => fst totals
  | Income => snd totals
  end.

Section Vocabulary.
Context {L : PyLib}.

(** The amount of a row, when [float] accepts it. *)
Definition amount_of (t : row) : option float := py_float (nth 2 t "").

Definition amount_or_zero (t : row) : float :=
  match amount_of t with
  | Some a => a
  | None => 0%float
  end.

(** A transaction of the flow whose amount [float] accepts. *)
Definition matching (flow_type : string) (t : row) : bool :=
  at_least 5 t && (nth 0 t "" =? flow_type)%string
  && match amount_of t with Some _ => true | None => false end.

(** The matching transactions of one group. *)
Definition in_group (key : nat) (flow_type name : string) (t : row) : bool :=
  matching flow_type t && (nth key t "" =? name)%string.

(** The distinct group names of a flow. *)
Definition group_names (key : nat) (flow_type : string) (ts : list row)
  : list string :=
  nodup string_dec (map (fun t => nth key t "") (filter (matching flow_type) ts)).

(** The amounts of a group added up in the order of the log, and those
    of the whole flow. *)
Definition group_total (key : nat) (flow_type : string) (ts : list row)
           (name : string) : float :=
  fsum (map amount_or_zero (filter (in_group key flow_type name) ts)).

Definition flow_total (flow_type : string) (ts : list row) : float :=
  fsum (map amount_or_zero (filter (matching flow_type) ts)).

(** The groups of a flow with their totals. *)
Definition groups (key : nat) (flow_type : string) (ts : list row)
  : list (string * float) :=
  map (fun name => (name, group_total key flow_type ts name))
      (group_names key flow_type ts).

(** The percentage of a group in the total of its flow, the quotient
    taken first. *)
Definition share (total_amount group_total : float) : float :=
  if (0 <? total_amount)%float
  then (group_total / total_amount * 100)%float
  else 0%float.

(** [stats] is a ranking of the groups of the flow: the names and totals
    are the first five of an arrangement of the groups, which is in
    descending order of total when no total is a NaN, each with its share
    of the total of the whole flow. *)
Definition ranked_top5 (key : nat) (flow_type : string) (ts : list row)
           (stats : list stat) : Prop :=
  exists ranking,
    Permutation ranking (groups key flow_type ts) /\
    (no_nan ranking -> descending ranking) /\
    map (fun s => (stat_name s, stat_total s)) stats = firstn 5 ranking /\
    Forall (fun s => stat_percentage s
                     = share (flow_total flow_type ts) (stat_total s))
           stats.

(** The ranking the program computes: its dict of group totals, sorted. *)
Definition ranking (key : nat) (flow_type : string) (ts : list row)
  : list (string * float) :=
  py_sorted (fst (group_loop key flow_type ts)).

(** [d.get(k, 0)]. *)
Fixpoint dict_get (k : string) (d : list (string * float)) : float :=
  match d with
  | [] => 0%float
  | (k', v) :: d' => if (k' =? k)%string then v else dict_get k d'
  end.

(** A row the balance calculator counts for a flow: it has a flow field
    and an amount field, and [float] accepts the amount. *)
Definition counted (flow_type : string) (t : row) : bool :=
  match field t 0, field t 2 with
  | Some f, Some s =>
      (f =? flow_type)%string
      && match py_float s with Some _ => true | None => false end
  | _, _ => false
  end.

(** The amounts of the rows counted for a flow, added up in the order of
    the log. *)
Definition counted_total (flow_type : string) (ts : list row) : float :=
  fsum (map amount_or_zero (filter (counted flow_type) ts)).

End Vocabulary.

(** The percentages, and the totals, of a result. *)
Definition percentages (stats : list stat) : list float :=
  map stat_percentage stats.
Definition totals_of (stats : list stat) : list float := map stat_total stats.

(** ** The rest of the pages

    What the other callbacks do to the files and compute from them:
    [Transactions.add_transaction], [LabelsAndTypes.delete_item],
    [Dashboard.update_balance] and [Analytics.update_general_flow]. *)

Local Open Scope Z_scope.

(** A reading of the clock: the time of day is within the day. *)
Definition wf_datetime (dt : datetime) : Prop := 0 <= micros dt < US_PER_DAY.

(** The numbers [update_general_flow] puts on the screen. *)
Record general_flow := mkflow {
  total_expenses : float;
  total_income : float;
  total_balance : float;
  avg_expenses : float;
  avg_income : float;
  avg_balance : float
}.

Section Pages.
Context {L : PyLib}.

(** The names [add_transaction] offers: the label of every row of the labels
    file with its three fields, in file order. *)
Definition available_labels (labels : list row) : list string :=
  map (fun r => nth 1 r "") labels.

(** [label_to_type[label_name]], the dict being filled row by row: a later
    row of the same label replaces an earlier one. *)
Fixpoint label_to_type (labels : list row) (label_name : string)
  : option string :=
  match labels with
  | [] => None
  | r :: rest =>
      match label_to_type rest label_name with
      | Some type_name => Some type_name
      | None =>
          if (nth 1 r "" =? label_name)%string then Some (nth 0 r "") else None
      end
  end.

(** [f.write] of one more row at the end of a file, which [open(.., 'a')]
    creates when it is missing. *)
Definition append_row (r : row) (file : csv_file) : csv_file :=
  match file with
  | None => Some [r]
  | Some rows => Some (rows ++ [r])
  end.

(** [Transactions.add_transaction], the user having pressed OK on the label
    at index [selection] of the list with an amount the dialog lets through
    (a float [a] for which [a <= 0] is false, so never zero); [amount] and
    [current_date] are the texts written for the amount and for today.
    Without a labels file, or without a label in it, nothing is done; and
    when the label chosen is the empty string the dialog returns nothing
    ([if result['label'] and result['amount']]), so nothing is written. *)
Definition add_transaction (flow_type : string) (selection : nat)
           (amount current_date : string) (st : store) : store :=
  match labels_of flow_type (cats st) with
  | None => st
  | Some rows =>
      let labels := filter (at_least 3) rows in
      match nth_error (available_labels labels) selection with
      | None => st
      | Some label_name =>
          if (label_name =? "")%string then st
          else
            match label_to_type labels label_name with
            | None => st
            | Some type_name =>
                mkstore
                  (append_row
                     [flow_type; label_name; amount; type_name; current_date]
                     (transactions_database st))
                  (update_usage_counts flow_type label_name type_name (cats st))
            end
      end
  end.

(** The rewriting half of [LabelsAndTypes.delete_item]: [labels_file] says
    whether the file name contains "labels", [actual_item_name] is the name
    read off the selected line.  A labels file keeps the rows of three
    fields and more whose label differs, a types file the rows of two
    fields and more whose type differs; a missing file raises inside the
    [try] and stays missing. *)
Definition delete_item (labels_file : bool) (actual_item_name : string)
           (file : csv_file) : csv_file :=
  match file with
  | None => None
  | Some rows =>
      Some (filter
              (fun row =>
                 if labels_file
                 then at_least 3 row
                      && negb (nth 1 row "" =? actual_item_name)%string
                 else at_least 2 row
                      && negb (nth 0 row "" =? actual_item_name)%string)
              rows)
  end.

(** [Dashboard.update_balance]: the balance shown and its colour.  The test
    [current_balance >= 0] is false for a NaN. *)
Definition update_balance (log : csv_file) : outcome (float * string) :=
  match calculate_all_time_totals log with
  | Raised e => Raised e
  | Returned (expenses, income) =>
      let current_balance := (income - expenses)%float in
      Returned (current_balance,
                if (0 <=? current_balance)%float then "darkgreen" else "darkred")
  end.

(** [total / days_in_period if days_in_period > 0 else 0], the [int]
    converted for the division. *)
Definition per_day (total : float) (days_in_period : Z) : float :=
  if 0 <? days_in_period
  then (total / py_float_of_int days_in_period)%float
  else 0%float.

(** [Analytics.update_general_flow], up to the formatting of the six
    numbers; the clock is read once by the filter and once by the day
    count. *)
Definition update_general_flow (log : csv_file) (now now' : datetime)
           (period : string) : outcome general_flow :=
  match get_filtered_transactions log now period with
  | Raised e => Raised e
  | Returned transactions =>
      let '(expenses, income) := calculate_totals transactions in
      let balance := (income - expenses)%float in
      match get_days_in_period log now' period transactions with
      | Raised e => Raised e
      | Returned days_in_period =>
          Returned (mkflow expenses income balance
                           (per_day expenses days_in_period)
                           (per_day income days_in_period)
                           (per_day balance days_in_period))
      end
  end.

(** The names of a list in the order of their first occurrence. *)
Definition first_occurrences (names : list string) : list string :=
  rev (nodup string_dec (rev names)).

(** The label names of the returned statistics. *)
Definition names_of (stats : list stat) : list string := map stat_name stats.

(** Every count of a labels file, and of a types file, is an integer that is
    not negative. *)
Definition counts_nonneg (count_of : row -> option Z) (rows : list row) : Prop :=
  Forall (fun r => exists n, count_of r = Some n /\ 0 <= n) rows.

End Pages.

(** ** Sample data

    A small log and two small catalogs, as the program writes them, for the
    examples at the end. *)

Module Sample.

Definition header : row := ["Flow"; "Label"; "Amount"; "Type"; "Date"].

Definition rent : row := ["Expense"; "Rent"; "100"; "Home"; "01/01/2025"].
Definition refund : row := ["Expense"; "Refund"; "-50"; "Home"; "03/01/2025"].
Definition rent_back : row := ["Expense"; "Rent"; "-50"; "Home"; "03/01/2025"].
Definition garbled : row := ["Expense"; "Rent"; "n/a"; "Home"; "03/01/2025"].
Definition rent_nan : row := ["Expense"; "Rent"; "nan"; "Home"; "03/01/2025"].
Definition bus : row := ["Expense"; "Bus"; "5"; "Travel"; "04/01/2025"].
Definition lunch : row := ["Expense"; "Food"; "60"; "Meals"; "03/01/2025"].
Definition dinner : row := ["Expense"; "Food"; "40"; "Meals"; "03/01/2025"].
Definition salary : row := ["Income"; "Salary"; "150"; "Work"; "03/01/2025"].

(** Five labels of 10 each and a sixth of -5. *)
Definition six_labels : list row :=
  [ ["Expense"; "A"; "10"; "T"; "01/01/2025"];
    ["Expense"; "B"; "10"; "T"; "01/01/2025"];
    ["Expense"; "C"; "10"; "T"; "01/01/2025"];
    ["Expense"; "D"; "10"; "T"; "01/01/2025"];
    ["Expense"; "E"; "10"; "T"; "01/01/2025"];
    ["Expense"; "F"; "-5"; "T"; "01/01/2025"] ].

(** Five labels of 10 each and a sixth of 0. *)
Definition six_with_zero : list row :=
  [ ["Expense"; "A"; "10"; "T"; "01/01/2025"];
    ["Expense"; "B"; "10"; "T"; "01/01/2025"];
    ["Expense"; "C"; "10"; "T"; "01/01/2025"];
    ["Expense"; "D"; "10"; "T"; "01/01/2025"];
    ["Expense"; "E"; "10"; "T"; "01/01/2025"];
    ["Expense"; "F"; "0"; "T"; "01/01/2025"] ].


Definition thirds : list row :=
  [ ["Expense"; "A"; "2"; "T"; "01/01/2025"];
    ["Expense"; "B"; "1"; "T"; "01/01/2025"] ].

Definition tenths : list row :=
  [ ["Expense"; "A"; "0.1"; "T"; "01/01/2025"];
    ["Expense"; "B"; "0.1"; "T"; "01/01/2025"];
    ["Expense"; "A"; "1.1"; "T"; "01/01/2025"] ].

(** 03/01/2025 is day 739254; noon of it. *)
Definition noon : datetime := mkdt 739254 43200000000.

Definition log : csv_file := Some [header; rent; refund].
Definition log_ahead : csv_file := Some [header; rent; bus].

(** A labels file with a key twice, a types file with a key twice. *)
Definition labels : csv_file :=
  Some [["Home"; "Rent"; "3"]; ["Home"; "Rent"; "7"]; ["Meals"; "Food"; "1"]].
Definition types : csv_file :=
  Some [["Meals"; "1"]; ["Home"; "2"]; ["Home"; "9"]].

Definition files : store :=
  mkstore (Some [header; rent; lunch]) (mkcats labels types None None).


End Sample.

(** * Properties *)

(** ** The Python library *)

Lemma int_str_roundtrip (n : Z) : Py.int (Py.str n) = Some n.
Proof.
  unfold Py.int, Py.str.
  rewrite NilZero.isi.
  - simpl. now rewrite DecimalZ.of_to.
  - destruct n; simpl; intros E; try discriminate E.
    injection E. apply Unsigned.to_uint_nonnil.
  - destruct n; simpl; intros E; try discriminate E.
    injection E. apply Unsigned.to_uint_nonnil.
Qed.

(** *** The order of the floats *)

(** On floats that are no NaN the comparison of the specification is the
    comparison of their places. *)
Lemma SFcompare_key f1 f2 :
  f1 <> S754_nan -> f2 <> S754_nan ->
  SFcompare f1 f2 = Some (lex_compare (sf_key f1) (sf_key f2)).
Proof.
  intros H1 H2. unfold lex_compare.
  destruct f1 as [s1|s1| |s1 m1 e1], f2 as [s2|s2| |s2 m2 e2];
    try congruence;
    try (destruct s1; try destruct s2; reflexivity);
    try (destruct s2; reflexivity).
  destruct s1, s2; cbn [SFcompare sf_key fst snd]; try reflexivity.
  rewrite !Z.compare_opp. change (-1 ?= -1) with Eq. cbv iota.
  rewrite (Z.compare_antisym e1 e2).
  destruct (e1 ?= e2) eqn:E; cbn [CompOpp]; try reflexivity.
  rewrite Pos.compare_cont_spec. cbn [Pos.switch_Eq Z.compare].
  rewrite (Pos.compare_antisym m1 m2). now destruct (m1 ?= m2)%positive.
Qed.

Lemma lex_compare_refl a : lex_compare a a = Eq.
Proof. unfold lex_compare. now rewrite !Z.compare_refl. Qed.

Lemma lex_compare_le a b : lex_compare a b <> Gt <-> lex_le a b.
Proof.
  unfold lex_compare, lex_le.
  destruct (Z.compare_spec (fst (fst a)) (fst (fst b)));
    destruct (Z.compare_spec (snd (fst a)) (snd (fst b)));
    destruct (Z.compare_spec (snd a) (snd b));
    split; intros; try lia; try congruence.
Qed.

Lemma lex_compare_lt a b :
  lex_compare a b = Lt <-> lex_le a b /\ ~ lex_le b a.
Proof.
  unfold lex_compare, lex_le.
  destruct (Z.compare_spec (fst (fst a)) (fst (fst b)));
    destruct (Z.compare_spec (snd (fst a)) (snd (fst b)));
    destruct (Z.compare_spec (snd a) (snd b));
    split; intros; try lia; try congruence.
Qed.

Lemma lex_compare_eq a b :
  lex_compare a b = Eq <-> lex_le a b /\ lex_le b a.
Proof.
  unfold lex_compare, lex_le.
  destruct (Z.compare_spec (fst (fst a)) (fst (fst b)));
    destruct (Z.compare_spec (snd (fst a)) (snd (fst b)));
    destruct (Z.compare_spec (snd a) (snd b));
    split; intros; try lia; try congruence.
Qed.

(** A float is no NaN exactly when its specification is none. *)
Lemma is_nan_spec x : is_nan x = false <-> Prim2SF x <> S754_nan.
Proof.
  unfold is_nan. rewrite FloatAxioms.eqb_spec. unfold SFeqb. split.
  - intros H E. rewrite E in H. discriminate H.
  - intros H. rewrite SFcompare_key by exact H. now rewrite lex_compare_refl.
Qed.

Lemma leb_key x y :
  is_nan x = false -> is_nan y = false ->
  ((x <=? y)%float = true <-> lex_le (float_key x) (float_key y)).
Proof.
  intros Hx Hy. apply is_nan_spec in Hx, Hy.
  rewrite FloatAxioms.leb_spec. unfold SFleb.
  rewrite SFcompare_key by assumption.
  rewrite <- lex_compare_le. fold (float_key x) (float_key y).
  destruct (lex_compare (float_key x) (float_key y)); split; congruence.
Qed.

Lemma ltb_key x y :
  is_nan x = false -> is_nan y = false ->
  ((x <? y)%float = true
   <-> lex_le (float_key x) (float_key y) /\ ~ lex_le (float_key y) (float_key x)).
Proof.
  intros Hx Hy. apply is_nan_spec in Hx, Hy.
  rewrite FloatAxioms.ltb_spec. unfold SFltb.
  rewrite SFcompare_key by assumption.
  rewrite <- lex_compare_lt. fold (float_key x) (float_key y).
  destruct (lex_compare (float_key x) (float_key y)); split; congruence.
Qed.

Lemma eqb_key x y :
  is_nan x = false -> is_nan y = false ->
  ((x =? y)%float = true
   <-> lex_le (float_key x) (float_key y) /\ lex_le (float_key y) (float_key x)).
Proof.
  intros Hx Hy. apply is_nan_spec in Hx, Hy.
  rewrite FloatAxioms.eqb_spec. unfold SFeqb.
  rewrite SFcompare_key by assumption.
  rewrite <- lex_compare_eq. fold (float_key x) (float_key y).
  destruct (lex_compare (float_key x) (float_key y)); split; congruence.
Qed.

(** Every comparison with a NaN is false. *)
Lemma compare_nan x y :
  is_nan x = true \/ is_nan y = true ->
  (x <=? y)%float = false /\ (x <? y)%float = false /\ (x =? y)%float = false.
Proof.
  intros H.
  rewrite FloatAxioms.leb_spec, FloatAxioms.ltb_spec, FloatAxioms.eqb_spec.
  unfold SFleb, SFltb, SFeqb.
  assert (E : SFcompare (Prim2SF x) (Prim2SF y) = None).
  { destruct H as [H|H].
    - assert (Prim2SF x = S754_nan) as ->; [|reflexivity].
      destruct (Prim2SF x) eqn:E; try reflexivity;
        assert (is_nan x = false) by (apply is_nan_spec; congruence); congruence.
    - assert (Prim2SF y = S754_nan) as ->; [|now destruct (Prim2SF x)].
      destruct (Prim2SF y) eqn:E; try reflexivity;
        assert (is_nan y = false) by (apply is_nan_spec; congruence); congruence. }
  now rewrite E.
Qed.

Lemma ltb_leb x y :
  is_nan x = false -> is_nan y = false ->
  (x <? y)%float = true -> (x <=? y)%float = true.
Proof.
  intros Hx Hy H. apply (ltb_key x y Hx Hy) in H. apply (leb_key x y Hx Hy).
  tauto.
Qed.

(** Two floats that are no NaN can be compared. *)
Lemma leb_total x y :
  is_nan x = false -> is_nan y = false ->
  (x <? y)%float = false -> (y <=? x)%float = true.
Proof.
  intros Hx Hy H. apply (leb_key y x Hy Hx).
  destruct ((x <? y)%float) eqn:E; [discriminate|]. clear H.
  assert (Hn : ~ (lex_le (float_key x) (float_key y)
                  /\ ~ lex_le (float_key y) (float_key x))).
  { intros Hk. apply (ltb_key x y Hx Hy) in Hk. congruence. }
  revert Hn. unfold lex_le. lia.
Qed.

Lemma leb_trans x y z :
  is_nan x = false -> is_nan y = false -> is_nan z = false ->
  (x <=? y)%float = true -> (y <=? z)%float = true -> (x <=? z)%float = true.
Proof.
  intros Hx Hy Hz Hxy Hyz.
  apply (leb_key x y Hx Hy) in Hxy. apply (leb_key y z Hy Hz) in Hyz.
  apply (leb_key x z Hx Hz). revert Hxy Hyz. unfold lex_le. lia.
Qed.

(** Of two floats equal to a third neither is smaller. *)
Lemma tied_not_ltb v x y :
  (x =? v)%float = true -> (y =? v)%float = true -> (x <? y)%float = false.
Proof.
  intros Ex Ey.
  assert (Hx : is_nan x = false).
  { destruct (is_nan x) eqn:E; [|reflexivity].
    destruct (compare_nan x v (or_introl E)) as (_ & _ & H). congruence. }
  assert (Hy : is_nan y = false).
  { destruct (is_nan y) eqn:E; [|reflexivity].
    destruct (compare_nan y v (or_introl E)) as (_ & _ & H). congruence. }
  assert (Hv : is_nan v = false).
  { destruct (is_nan v) eqn:E; [|reflexivity].
    destruct (compare_nan x v (or_intror E)) as (_ & _ & H). congruence. }
  apply (eqb_key x v Hx Hv) in Ex. apply (eqb_key y v Hy Hv) in Ey.
  destruct ((x <? y)%float) eqn:E; [|reflexivity].
  apply (ltb_key x y Hx Hy) in E. revert Ex Ey E. unfold lex_le. lia.
Qed.


(** *** Signs *)







(** *** The insertion sort *)

Lemma insert_desc_perm x l : Permutation (Py.insert_desc x l) (x :: l).
Proof.
  induction l as [|y l IH]; simpl.
  - apply Permutation_refl.
  - destruct ((snd x <? snd y)%float).
    + eapply Permutation_trans; [apply perm_skip, IH | apply perm_swap].
    + apply Permutation_refl.
Qed.

Lemma sorted_perm l : Permutation (Py.sorted l) l.
Proof.
  induction l as [|x l IH]; simpl.
  - constructor.
  - eapply Permutation_trans; [apply insert_desc_perm | now apply perm_skip].
Qed.

Lemma insert_desc_descending x l :
  is_nan (snd x) = false -> no_nan l ->
  descending l -> descending (Py.insert_desc x l).
Proof.
  unfold descending, no_nan. intros Hx Hl Hd.
  induction Hd as [|y l Hd IH Hy]; simpl.
  - repeat constructor.
  - inversion Hl as [|? ? Hyn Hln]; subst.
    destruct ((snd x <? snd y)%float) eqn:E.
    + constructor; [now apply IH|].
      eapply Permutation_Forall; [apply Permutation_sym, insert_desc_perm|].
      constructor; [now apply ltb_leb | exact Hy].
    + constructor; [now constructor|].
      assert (Hyx : (snd y <=? snd x)%float = true) by now apply leb_total.
      constructor; [exact Hyx|].
      rewrite Forall_forall in Hy, Hln. apply Forall_forall. intros z Hz.
      apply (leb_trans (snd z) (snd y) (snd x)); auto.
Qed.

Lemma sorted_descending l : no_nan l -> descending (Py.sorted l).
Proof.
  induction 1 as [|x l Hx Hl IH]; simpl.
  - constructor.
  - apply insert_desc_descending; auto.
    eapply Permutation_Forall; [apply Permutation_sym, sorted_perm | exact Hl].
Qed.

(** The sort does not move items of one amount past each other. *)
Lemma insert_desc_stable v x l :
  filter (tied v) (Py.insert_desc x l) = filter (tied v) (x :: l).
Proof.
  induction l as [|y l IH]; [reflexivity|]. cbn [Py.insert_desc].
  destruct ((snd x <? snd y)%float) eqn:E; [|reflexivity].
  cbn [filter] in *. rewrite IH.
  destruct (tied v x) eqn:Ex; [|reflexivity].
  destruct (tied v y) eqn:Ey; [|reflexivity].
  unfold tied in Ex, Ey.
  rewrite (tied_not_ltb v _ _ Ex Ey) in E. discriminate E.
Qed.

Lemma sorted_stable l v :
  filter (tied v) (Py.sorted l) = filter (tied v) l.
Proof.
  induction l as [|x l IH]; [reflexivity|].
  cbn [Py.sorted fold_right]. rewrite insert_desc_stable.
  cbn [filter]. fold (Py.sorted l). now rewrite IH.
Qed.

(** The instance the examples run on. *)
#[export] Instance CPython : PyLib := {|
  py_int := Py.int;
  py_str := Py.str;
  py_float := Py.float;
  py_float_of_int := Py.float_of_int;
  py_strptime := Py.strptime_dmy;
  py_sorted := Py.sorted;
  py_int_str := int_str_roundtrip;
  py_sorted_perm := sorted_perm;
  py_sorted_descending := sorted_descending;
  py_sorted_stable := fun items v _ => sorted_stable items v
|}.

(** ** Usage counters *)

Section CounterFacts.
Context {L : PyLib}.

Lemma filter_at_least_app n pre (r : row) post :
  at_least n r = true ->
  Forall (fun x => at_least n x = true) pre ->
  Forall (fun x => at_least n x = true) post ->
  filter (at_least n) (pre ++ r :: post) = pre ++ r :: post.
Proof.
  intros Hr Hpre Hpost.
  apply forallb_filter_id, forallb_forall. intros x Hx.
  apply in_app_or in Hx. rewrite Forall_forall in Hpre, Hpost.
  destruct Hx as [Hx | [<- | Hx]]; auto.
Qed.

Lemma filter_kept n (rows : list row) :
  Forall (fun x => at_least n x = true) (filter (at_least n) rows).
Proof.
  apply Forall_forall. intros x Hx. now apply filter_In in Hx.
Qed.

(** What the scan of a labels file does when the first row with the key
    sits after [pre]: it succeeds exactly when the rows up to it unpack
    and its count is an integer, and then it rewrites that row alone. *)
Lemma scan_labels_first f ty lb pre r post :
  Forall (fun x => label_key ty lb x = false) pre ->
  label_key ty lb r = true ->
  match scan_labels f ty lb (pre ++ r :: post) with
  | Some rows' =>
      Forall (fun x => is_triple x = true) pre /\
      exists c n, r = [ty; lb; c] /\ py_int c = Some n /\
                  rows' = pre ++ [ty; lb; py_str (f n)] :: post
  | None =>
      ~ (Forall (fun x => is_triple x = true) pre /\
         exists c n, r = [ty; lb; c] /\ py_int c = Some n)
  end.
Proof.
  induction pre as [|x pre IH]; intros Hpre Hr.
  - destruct r as [|a [|b [|c [|d r]]]]; simpl in *; try discriminate.
    + intros [_ (c' & n & E & _)]. discriminate E.
    + rewrite Hr. apply andb_prop in Hr as [Ha Hb].
      apply String.eqb_eq in Ha, Hb. subst a b.
      destruct (py_int c) as [n|] eqn:Hc.
      * split; [constructor|]. now exists c, n.
      * intros [_ (c' & n & E & Hn)]. injection E as <-. congruence.
    + intros [_ (c' & n & E & _)]. discriminate E.
  - inversion Hpre as [|? ? Hx Hpre']; subst.
    specialize (IH Hpre' Hr).
    destruct x as [|a [|b [|c [|d x]]]]; simpl in *;
      try (intros [Hall _]; inversion Hall; discriminate).
    rewrite Hx.
    destruct (scan_labels f ty lb (pre ++ r :: post)) as [rows'|]; simpl.
    + destruct IH as [Hall (c' & n & -> & Hn & ->)].
      split; [now constructor|]. now exists c', n.
    + intros [Hall Hex]. apply IH. inversion Hall; now subst.
Qed.

Lemma scan_types_first f ty pre r post :
  Forall (fun x => type_key ty x = false) pre ->
  type_key ty r = true ->
  match scan_types f ty (pre ++ r :: post) with
  | Some rows' =>
      Forall (fun x => is_pair x = true) pre /\
      exists c n, r = [ty; c] /\ py_int c = Some n /\
                  rows' = pre ++ [ty; py_str (f n)] :: post
  | None =>
      ~ (Forall (fun x => is_pair x = true) pre /\
         exists c n, r = [ty; c] /\ py_int c = Some n)
  end.
Proof.
  induction pre as [|x pre IH]; intros Hpre Hr.
  - destruct r as [|a [|c [|d r]]]; simpl in *; try discriminate.
    + intros [_ (c' & n & E & _)]. discriminate E.
    + rewrite Hr. apply String.eqb_eq in Hr. subst a.
      destruct (py_int c) as [n|] eqn:Hc.
      * split; [constructor|]. now exists c, n.
      * intros [_ (c' & n & E & Hn)]. injection E as <-. congruence.
    + intros [_ (c' & n & E & _)]. discriminate E.
  - inversion Hpre as [|? ? Hx Hpre']; subst.
    specialize (IH Hpre' Hr).
    destruct x as [|a [|c [|d x]]]; simpl in *;
      try (intros [Hall _]; inversion Hall; discriminate).
    rewrite Hx.
    destruct (scan_types f ty (pre ++ r :: post)) as [rows'|]; simpl.
    + destruct IH as [Hall (c' & n & -> & Hn & ->)].
      split; [now constructor|]. now exists c', n.
    + intros [Hall Hex]. apply IH. inversion Hall; now subst.
Qed.

(** A scan that finds no row with the key changes nothing. *)
Lemma scan_labels_miss f ty lb rows rows' :
  Forall (fun x => label_key ty lb x = false) rows ->
  scan_labels f ty lb rows = Some rows' -> rows' = rows.
Proof.
  revert rows'. induction rows as [|x rows IH]; intros rows' Hall E.
  - now injection E as <-.
  - inversion Hall as [|? ? Hx Hrest]; subst.
    destruct x as [|a [|b [|c [|d x]]]]; simpl in *; try discriminate.
    rewrite Hx in E.
    destruct (scan_labels f ty lb rows) as [r0|]; simpl in E; try discriminate.
    injection E as <-. f_equal. now apply IH.
Qed.


(** The rows of a labels file after one of its two counter functions, [f]
    being the change of the count. *)
Lemma rewrite_labels_first f file ty lb pre r post :
  label_rows file = pre ++ r :: post ->
  Forall (fun x => label_key ty lb x = false) pre ->
  label_key ty lb r = true ->
  exists r',
    label_rows (rewrite_file 3 (scan_labels f ty lb) file) = pre ++ r' :: post /\
    (Forall (fun x => is_triple x = true) pre ->
     forall c n, r = [ty; lb; c] -> py_int c = Some n ->
                 r' = [ty; lb; py_str (f n)]).
Proof.
  intros Hrows Hpre Hr.
  destruct file as [rows|]; simpl in Hrows;
    [|now destruct pre; discriminate Hrows].
  pose proof (filter_kept 3 rows) as Hkept. rewrite Hrows in Hkept.
  apply Forall_app in Hkept as [Hk1 Hk2].
  inversion Hk2 as [|? ? Hkr Hk3]; subst.
  pose proof (scan_labels_first f ty lb pre r post Hpre Hr) as Hscan.
  unfold rewrite_file. rewrite Hrows.
  destruct (scan_labels f ty lb (pre ++ r :: post)) as [rows'|].
  - destruct Hscan as [Hall (c & n & -> & Hn & ->)].
    exists [ty; lb; py_str (f n)]. split.
    + simpl. now apply filter_at_least_app.
    + intros _ c' n' E Hn'. injection E as <-. congruence.
  - exists r. split.
    + simpl. exact Hrows.
    + intros Hall c n -> Hn. exfalso. apply Hscan. split; [exact Hall|].
      now exists c, n.
Qed.

Lemma rewrite_types_first f file ty pre r post :
  type_rows file = pre ++ r :: post ->
  Forall (fun x => type_key ty x = false) pre ->
  type_key ty r = true ->
  exists r',
    type_rows (rewrite_file 2 (scan_types f ty) file) = pre ++ r' :: post /\
    (Forall (fun x => is_pair x = true) pre ->
     forall c n, r = [ty; c] -> py_int c = Some n ->
                 r' = [ty; py_str (f n)]).
Proof.
  intros Hrows Hpre Hr.
  destruct file as [rows|]; simpl in Hrows;
    [|now destruct pre; discriminate Hrows].
  pose proof (filter_kept 2 rows) as Hkept. rewrite Hrows in Hkept.
  apply Forall_app in Hkept as [Hk1 Hk2].
  inversion Hk2 as [|? ? Hkr Hk3]; subst.
  pose proof (scan_types_first f ty pre r post Hpre Hr) as Hscan.
  unfold rewrite_file. rewrite Hrows.
  destruct (scan_types f ty (pre ++ r :: post)) as [rows'|].
  - destruct Hscan as [Hall (c & n & -> & Hn & ->)].
    exists [ty; py_str (f n)]. split.
    + simpl. now apply filter_at_least_app.
    + intros _ c' n' E Hn'. injection E as <-. congruence.
  - exists r. split.
    + simpl. exact Hrows.
    + intros Hall c n -> Hn. exfalso. apply Hscan. split; [exact Hall|].
      now exists c, n.
Qed.

(** The two catalogs a counter update of one flow does not name are left
    as they are. *)
Lemma decrement_usage_counts_frame flow_type label_name type_name c :
  let c' := decrement_usage_counts flow_type label_name type_name c in
  other_labels_of flow_type c' = other_labels_of flow_type c /\
  other_types_of flow_type c' = other_types_of flow_type c.
Proof.
  unfold decrement_usage_counts, other_labels_of, other_types_of.
  now destruct (flow_type =? "Expense")%string.
Qed.

Lemma decrement_usage_counts_own flow_type label_name type_name c :
  let c' := decrement_usage_counts flow_type label_name type_name c in
  labels_of flow_type c' =
    decrement_label_count (labels_of flow_type c) type_name label_name /\
  types_of flow_type c' = decrement_type_count (types_of flow_type c) type_name.
Proof.
  unfold decrement_usage_counts, labels_of, types_of.
  now destruct (flow_type =? "Expense")%string.
Qed.

(** C10: with several rows of one key in a catalog, each of the four
    counter functions rewrites at most the first of them in file order,
    adding one (or taking one, not below zero) when the file is well formed
    up to that row; the rows after it, the later duplicates among them,
    are written back as they were read. *)
Theorem counters_touch_first_duplicate_only
        (labels_file types_file : csv_file) (type_name label_name : string)
        (lpre lpost tpre tpost : list row) (lr tr : row) :
  label_rows labels_file = lpre ++ lr :: lpost ->
  Forall (fun x => label_key type_name label_name x = false) lpre ->
  label_key type_name label_name lr = true ->
  type_rows types_file = tpre ++ tr :: tpost ->
  Forall (fun x => type_key type_name x = false) tpre ->
  type_key type_name tr = true ->
  (exists r',
      label_rows (update_label_count labels_file type_name label_name)
        = lpre ++ r' :: lpost /\
      (Forall (fun x => is_triple x = true) lpre ->
       forall c n, lr = [type_name; label_name; c] -> py_int c = Some n ->
                   r' = [type_name; label_name; py_str (n + 1)])) /\
  (exists r',
      label_rows (decrement_label_count labels_file type_name label_name)
        = lpre ++ r' :: lpost /\
      (Forall (fun x => is_triple x = true) lpre ->
       forall c n, lr = [type_name; label_name; c] -> py_int c = Some n ->
                   r' = [type_name; label_name; py_str (Z.max 0 (n - 1))])) /\
  (exists r',
      type_rows (update_type_count types_file type_name) = tpre ++ r' :: tpost /\
      (Forall (fun x => is_pair x = true) tpre ->
       forall c n, tr = [type_name; c] -> py_int c = Some n ->
                   r' = [type_name; py_str (n + 1)])) /\
  (exists r',
      type_rows (decrement_type_count types_file type_name) = tpre ++ r' :: tpost /\
      (Forall (fun x => is_pair x = true) tpre ->
       forall c n, tr = [type_name; c] -> py_int c = Some n ->
                   r' = [type_name; py_str (Z.max 0 (n - 1))])).
Proof.
  intros Hl Hlk Hlr Ht Htk Htr.
  repeat split.
  - exact (rewrite_labels_first (fun count => count + 1) _ _ _ _ _ _ Hl Hlk Hlr).
  - exact (rewrite_labels_first (fun count => Z.max 0 (count - 1))
                                _ _ _ _ _ _ Hl Hlk Hlr).
  - exact (rewrite_types_first (fun count => count + 1) _ _ _ _ _ Ht Htk Htr).
  - exact (rewrite_types_first (fun count => Z.max 0 (count - 1))
                               _ _ _ _ _ Ht Htk Htr).
Qed.

(** A transaction whose label is no longer in the catalog: the scan finds
    nothing and the labels rows are written back unchanged. *)
Lemma decrement_label_missing file ty lb :
  Forall (fun x => label_key ty lb x = false) (label_rows file) ->
  label_rows (decrement_label_count file ty lb) = label_rows file.
Proof.
  intros Hall. destruct file as [rows|]; [|reflexivity].
  unfold decrement_label_count, rewrite_file. simpl in *.
  destruct (scan_labels _ ty lb (filter (at_least 3) rows)) as [rows'|] eqn:E;
    [|reflexivity].
  apply scan_labels_miss in E; [|exact Hall]. subst rows'. simpl.
  apply forallb_filter_id, forallb_forall. intros x Hx.
  now apply filter_In in Hx.
Qed.



End CounterFacts.

(** ** Datetimes *)

Ltac dt_bools :=
  unfold dt_geb, dt_leb in *; simpl in *;
  repeat rewrite ?orb_true_iff, ?andb_true_iff, ?orb_false_iff, ?andb_false_iff,
    ?Z.ltb_lt, ?Z.eqb_eq, ?Z.leb_le, ?Z.ltb_ge, ?Z.eqb_neq, ?Z.leb_gt in *.

Lemma dt_leb_refl a : dt_leb a a = true.
Proof. destruct a. dt_bools. lia. Qed.

Lemma dt_leb_total a b : dt_leb a b = true \/ dt_leb b a = true.
Proof. destruct a, b. dt_bools. lia. Qed.

Lemma dt_leb_trans a b c :
  dt_leb a b = true -> dt_leb b c = true -> dt_leb a c = true.
Proof. destruct a, b, c. dt_bools. lia. Qed.

Lemma dt_leb_antisym a b : dt_leb a b = true -> dt_leb b a = true -> a = b.
Proof.
  destruct a as [d1 u1], b as [d2 u2]. dt_bools. intros H1 H2.
  assert (d1 = d2) by lia. assert (u1 = u2) by lia. now subst.
Qed.

Lemma dt_leb_false a b : dt_leb a b = false -> dt_leb b a = true.
Proof. intros H. destruct (dt_leb_total a b); congruence. Qed.

(** Midnights compare as their days do. *)
Lemma midnight_geb d n : dt_geb (midnight d) (midnight n) = true <-> n <= d.
Proof. unfold midnight. dt_bools. lia. Qed.

Lemma fold_min_spec ds : forall d,
  (fold_left dt_min ds d = d \/ In (fold_left dt_min ds d) ds) /\
  dt_leb (fold_left dt_min ds d) d = true /\
  forall x, In x ds -> dt_leb (fold_left dt_min ds d) x = true.
Proof.
  induction ds as [|y ds IH]; intros d; simpl.
  - split; [now left|]. split; [apply dt_leb_refl|]. intros x [].
  - destruct (IH (dt_min d y)) as (Hin & Hle & Hall).
    assert (Hd : dt_leb (dt_min d y) d = true /\ dt_leb (dt_min d y) y = true).
    { unfold dt_min. destruct (dt_leb d y) eqn:E.
      - split; [apply dt_leb_refl | exact E].
      - split; [now apply dt_leb_false | apply dt_leb_refl]. }
    destruct Hd as [Hd Hy]. repeat split.
    + destruct Hin as [-> | Hin]; [|now right; right].
      unfold dt_min. destruct (dt_leb d y); [now left | now right; left].
    + eapply dt_leb_trans; eauto.
    + intros x [<- | Hx]; [eapply dt_leb_trans; eauto | now apply Hall].
Qed.

Lemma fold_max_spec ds : forall d,
  (fold_left dt_max ds d = d \/ In (fold_left dt_max ds d) ds) /\
  dt_leb d (fold_left dt_max ds d) = true /\
  forall x, In x ds -> dt_leb x (fold_left dt_max ds d) = true.
Proof.
  induction ds as [|y ds IH]; intros d; simpl.
  - split; [now left|]. split; [apply dt_leb_refl|]. intros x [].
  - destruct (IH (dt_max d y)) as (Hin & Hle & Hall).
    assert (Hd : dt_leb d (dt_max d y) = true /\ dt_leb y (dt_max d y) = true).
    { unfold dt_max. destruct (dt_leb y d) eqn:E.
      - split; [apply dt_leb_refl | exact E].
      - split; [now apply dt_leb_false | apply dt_leb_refl]. }
    destruct Hd as [Hd Hy]. repeat split.
    + destruct Hin as [-> | Hin]; [|now right; right].
      unfold dt_max. destruct (dt_leb y d); [now left | now right; left].
    + eapply dt_leb_trans; eauto.
    + intros x [<- | Hx]; [eapply dt_leb_trans; eauto | now apply Hall].
Qed.

(** Python's [min] and [max] of a non-empty list are the earliest and the
    latest of its dates, and those are unique. *)
Lemma min_of_earliest d ds : is_earliest (min_of d ds) (d :: ds).
Proof.
  unfold min_of. destruct (fold_min_spec ds d) as (Hin & Hle & Hall). split.
  - destruct Hin as [E | Hin]; [left; symmetry; exact E | now right].
  - intros x [<- | Hx]; auto.
Qed.

Lemma max_of_latest d ds : is_latest (max_of d ds) (d :: ds).
Proof.
  unfold max_of. destruct (fold_max_spec ds d) as (Hin & Hle & Hall). split.
  - destruct Hin as [E | Hin]; [left; symmetry; exact E | now right].
  - intros x [<- | Hx]; auto.
Qed.

Lemma earliest_unique a b ds : is_earliest a ds -> is_earliest b ds -> a = b.
Proof. intros [Ha Ha'] [Hb Hb']. apply dt_leb_antisym; auto. Qed.

Lemma latest_unique a b ds : is_latest a ds -> is_latest b ds -> a = b.
Proof. intros [Ha Ha'] [Hb Hb']. apply dt_leb_antisym; auto. Qed.

(** ** The period filter and the day count *)

Section PeriodFacts.
Context {L : PyLib}.

Lemma at_least_5_field t :
  at_least 5 t = true -> exists s, field t 4 = Some s.
Proof.
  destruct t as [|a [|b [|c [|d [|e t]]]]]; try discriminate.
  intros _. now exists e.
Qed.

(** On rows that have their five fields the loop over the filtered set
    finds the dates that parse. *)
Lemma strptime_all_parsed ts :
  Forall (fun t => at_least 5 t = true) ts ->
  strptime_all ts = Returned (parsed_dates ts).
Proof.
  induction 1 as [|t ts Ht _ IH]; [reflexivity|].
  destruct (at_least_5_field t Ht) as [s Hs].
  cbn [strptime_all parsed_dates]. unfold row_date, row_day. rewrite Hs, IH.
  now destruct (py_strptime s).
Qed.

Lemma window_days_cases period n :
  window_days period = Some n ->
  (period = "Last 7 days" /\ n = 7) \/
  (period = "Last 30 days" /\ n = 30) \/
  (period = "Last 12 months" /\ n = 365).
Proof.
  unfold window_days.
  destruct (period =? "Last 7 days")%string eqn:E7;
    [apply String.eqb_eq in E7; intros [= <-]; auto|].
  destruct (period =? "Last 30 days")%string eqn:E30;
    [apply String.eqb_eq in E30; intros [= <-]; auto|].
  destruct (period =? "Last 12 months")%string eqn:E365;
    [apply String.eqb_eq in E365; intros [= <-]; auto|].
  discriminate.
Qed.

Lemma known_period_false period :
  known_period period = false ->
  (period =? "Today")%string = false /\
  (period =? "Last 7 days")%string = false /\
  (period =? "Last 30 days")%string = false /\
  (period =? "Last 12 months")%string = false /\
  (period =? "All Time")%string = false.
Proof.
  unfold known_period. simpl. rewrite !orb_false_iff. tauto.
Qed.

(** The day count of a rolling period over a log with a date in it. *)
Lemma days_rolling header rows now period n ts d ds :
  window_days period = Some n ->
  parsed_dates (filter (at_least 5) rows) = d :: ds ->
  get_days_in_period (Some (header :: rows)) now period ts
  = Returned (Z.max 1 (days_between now
                         (dt_max (minus_days now n) (min_of d ds)) + 1)).
Proof.
  intros Hw Hd. unfold get_days_in_period. rewrite Hd.
  destruct (window_days_cases _ _ Hw) as [[-> ->] | [[-> ->] | [-> ->]]];
    reflexivity.
Qed.

(** The All Time day count over a filtered set with a date in it. *)
Lemma days_all_time header rows now ts d ds e es :
  parsed_dates (filter (at_least 5) rows) = d :: ds ->
  Forall (fun t => at_least 5 t = true) ts ->
  parsed_dates ts = e :: es ->
  get_days_in_period (Some (header :: rows)) now "All Time" ts
  = Returned (Z.max 1 (days_between (max_of e es) (min_of e es) + 1)).
Proof.
  intros Hd Hts He. unfold get_days_in_period. rewrite Hd. simpl.
  rewrite (strptime_all_parsed ts Hts), He.
  destruct ts; [discriminate He | reflexivity].
Qed.

(** C1: the day count.  Today gives 1.  A rolling period over a log with a
    date in it gives max(1, (now - actual_start).days + 1) with
    actual_start the later of now minus the window (7, 30, 365 days) and
    the earliest date that parses in the whole log, whatever the filtered
    set is.  All Time gives max(1, (latest - earliest).days + 1) over the
    dates of the filtered set, and 1 when the filtered set is empty or has
    no date that parses, when the log is missing, and when the log has no
    date that parses. *)
Theorem days_in_period_formula (log : csv_file) (now : datetime)
        (transactions : list row) :
  get_days_in_period log now "Today" transactions = Returned 1
  /\ (forall period n header rows earliest,
         window_days period = Some n ->
         log = Some (header :: rows) ->
         is_earliest earliest (parsed_dates (filter (at_least 5) rows)) ->
         get_days_in_period log now period transactions
         = Returned (Z.max 1 (days_between now
                                (dt_max (minus_days now n) earliest) + 1)))
  /\ (forall header rows lo hi,
         log = Some (header :: rows) ->
         parsed_dates (filter (at_least 5) rows) <> [] ->
         Forall (fun t => at_least 5 t = true) transactions ->
         is_earliest lo (parsed_dates transactions) ->
         is_latest hi (parsed_dates transactions) ->
         get_days_in_period log now "All Time" transactions
         = Returned (Z.max 1 (days_between hi lo + 1)))
  /\ (log = None ->
      get_days_in_period log now "All Time" transactions = Returned 1)
  /\ (forall header rows,
         log = Some (header :: rows) ->
         transactions = []
         \/ parsed_dates (filter (at_least 5) rows) = []
         \/ (Forall (fun t => at_least 5 t = true) transactions
             /\ parsed_dates transactions = []) ->
         get_days_in_period log now "All Time" transactions = Returned 1).
Proof.
  split; [reflexivity|]. split; [|split; [|split]].
  - intros period n header rows earliest Hw -> Hmin.
    destruct (parsed_dates (filter (at_least 5) rows)) as [|d ds] eqn:Hd;
      [now destruct Hmin|].
    rewrite (days_rolling header rows now period n transactions d ds Hw Hd).
    now rewrite (earliest_unique _ _ _ Hmin (min_of_earliest d ds)).
  - intros header rows lo hi -> Hlog Hts Hlo Hhi.
    destruct (parsed_dates (filter (at_least 5) rows)) as [|d ds] eqn:Hd;
      [congruence|].
    destruct (parsed_dates transactions) as [|e es] eqn:He;
      [now destruct Hlo|].
    rewrite (days_all_time header rows now transactions d ds e es Hd Hts He).
    rewrite (earliest_unique _ _ _ Hlo (min_of_earliest e es)).
    now rewrite (latest_unique _ _ _ Hhi (max_of_latest e es)).
  - now intros ->.
  - intros header rows -> H. unfold get_days_in_period. simpl.
    destruct (parsed_dates (filter (at_least 5) rows)) as [|d ds];
      [reflexivity|].
    destruct H as [-> | [H | [Hts He]]]; [reflexivity | discriminate H |].
    rewrite (strptime_all_parsed _ Hts), He. now destruct transactions.
Qed.

(** A missing log, or one with no date that parses, gives 1 for every
    period. *)
Lemma days_without_dates log now period ts :
  log = None \/
  (exists header rows, log = Some (header :: rows) /\
                       parsed_dates (filter (at_least 5) rows) = []) ->
  get_days_in_period log now period ts = Returned 1.
Proof.
  unfold get_days_in_period.
  intros [-> | (header & rows & -> & ->)];
    now destruct (period =? "Today")%string.
Qed.

(** C6, as the program has it: a selector outside the five of the period
    box is filtered as All Time is (every row of the log with its five
    fields, unchanged and in order), and its day count is 1, not the All
    Time day count.  (A log file without a first line raises in both
    functions, for every selector.) *)
Theorem unknown_period_fallback (log : csv_file) (now : datetime)
        (period : string) (transactions : list row) :
  known_period period = false ->
  get_filtered_transactions log now period
  = get_filtered_transactions log now "All Time"
  /\ (forall header rows,
         log = Some (header :: rows) ->
         get_filtered_transactions log now period
         = Returned (filter (at_least 5) rows))
  /\ (log = None -> get_filtered_transactions log now period = Returned [])
  /\ (log <> Some [] ->
      get_days_in_period log now period transactions = Returned 1).
Proof.
  intros Hk.
  destruct (known_period_false _ Hk) as (H0 & H7 & H30 & H365 & Hall).
  assert (Hcut : cutoff_date period now = None)
    by (unfold cutoff_date; now rewrite H0, H7, H30, H365).
  repeat split.
  - destruct log as [[|header rows]|]; try reflexivity.
    simpl. now rewrite Hall, Hcut.
  - intros header rows ->. simpl. now rewrite Hall, Hcut.
  - now intros ->.
  - intros Hlog. unfold get_days_in_period. rewrite H0, H7, H30, H365, Hall.
    destruct log as [[|header rows]|]; try reflexivity; [congruence|].
    now destruct (parsed_dates (filter (at_least 5) rows)).
Qed.

(** The Today filter keeps a row exactly when its date parses and its day
    is now's day or a later one. *)
Lemma on_or_after_today now t :
  on_or_after (start_of_day now) t = true
  <-> exists d, row_day t = Some d /\ ordinal now <= d.
Proof.
  unfold on_or_after, row_date, start_of_day.
  destruct (row_day t) as [d|]; simpl.
  - rewrite midnight_geb. split.
    + intros H. now exists d.
    + now intros (d' & [= <-] & H).
  - split; [discriminate | now intros (d' & E & _)].
Qed.

(** C7, as the program has it: with period Today the cutoff is the start
    of now's day and the bound is inclusive, so the filter returns, in
    log order, exactly the rows (with their five fields) whose date parses
    and is now's day or later; no row of an earlier day is returned, and
    when the log holds no row dated after now's day, only rows of now's
    day are returned. *)
Theorem today_filter (log : csv_file) (now : datetime)
        (header : row) (rows : list row) :
  log = Some (header :: rows) ->
  cutoff_date "Today" now = Some (start_of_day now)
  /\ get_filtered_transactions log now "Today"
     = Returned (filter (on_or_after (start_of_day now))
                        (filter (at_least 5) rows))
  /\ (forall t,
         In t (filter (on_or_after (start_of_day now))
                      (filter (at_least 5) rows))
         <-> In t rows /\ at_least 5 t = true /\
             exists d, row_day t = Some d /\ ordinal now <= d)
  /\ ((forall t d, In t rows -> row_day t = Some d -> d <= ordinal now) ->
      all_returned (fun t => row_day t = Some (ordinal now))
                   (get_filtered_transactions log now "Today")).
Proof.
  intros ->. split; [reflexivity|]. split; [reflexivity|]. split.
  - intros t. rewrite !filter_In, on_or_after_today. tauto.
  - intros Hpast. simpl. apply Forall_forall. intros t Ht.
    rewrite !filter_In, on_or_after_today in Ht.
    destruct Ht as [[Hin _] (d & Hd & Hle)].
    specialize (Hpast t d Hin Hd). rewrite Hd. f_equal. lia.
Qed.

End PeriodFacts.

(** ** Sums of amounts *)

Local Open Scope float_scope.

Lemma fsum_snoc l a : fsum (l ++ [a]) = fsum l + a.
Proof. unfold fsum. now rewrite fold_left_app. Qed.




(** ** The aggregator *)

Section AggregatorFacts.
Context {L : PyLib}.

(** *** The dict of group totals *)

Lemma dict_add_keys k a d k' :
  In k' (map fst (dict_add k a d)) <-> k' = k \/ In k' (map fst d).
Proof.
  induction d as [|[k0 v] d IH]; simpl.
  - intuition.
  - destruct (k0 =? k)%string eqn:E; simpl.
    + apply String.eqb_eq in E. subst k0. intuition.
    + rewrite IH. intuition.
Qed.

Lemma dict_add_NoDup k a d :
  NoDup (map fst d) -> NoDup (map fst (dict_add k a d)).
Proof.
  induction d as [|[k0 v] d IH]; simpl; intros H.
  - constructor; [intros [] | constructor].
  - inversion H as [|? ? Hnot Hd]; subst.
    destruct (k0 =? k)%string eqn:E; simpl.
    + now constructor.
    + constructor; [|now apply IH]. rewrite dict_add_keys.
      intros [-> | Hin]; [|contradiction].
      rewrite String.eqb_refl in E. discriminate.
Qed.

Lemma dict_get_add k a d k' :
  dict_get k' (dict_add k a d)
  = if (k =? k')%string then dict_get k d + a else dict_get k' d.
Proof.
  induction d as [|[k0 v] d IH]; simpl.
  - reflexivity.
  - destruct (k0 =? k)%string eqn:E; simpl.
    + apply String.eqb_eq in E. subst k0.
      now destruct (k =? k')%string.
    + rewrite IH. destruct (k0 =? k')%string eqn:E'; [|reflexivity].
      apply String.eqb_eq in E'. subst k'.
      destruct (k =? k0)%string eqn:E''; [|reflexivity].
      apply String.eqb_eq in E''. subst k0.
      rewrite String.eqb_refl in E. discriminate.
Qed.

Lemma dict_in_get d : NoDup (map fst d) ->
  forall k v, In (k, v) d <-> In k (map fst d) /\ dict_get k d = v.
Proof.
  induction d as [|[k0 v0] d IH]; simpl; intros H k v.
  - tauto.
  - inversion H as [|? ? Hnot Hd]; subst. rewrite (IH Hd).
    destruct (k0 =? k)%string eqn:E.
    + apply String.eqb_eq in E. subst k0. split.
      * intros [[= <-] | [Hin _]]; [auto | contradiction].
      * intros [_ <-]. now left.
    + apply String.eqb_neq in E. split.
      * intros [[= <- _] | [Hin Hv]]; [congruence | auto].
      * intros [[-> | Hin] Hv]; [congruence | auto].
Qed.

(** *** The grouping loop *)

Lemma group_step_matching key flow_type st t :
  group_step key flow_type st t
  = if matching flow_type t
    then (dict_add (nth key t "") (amount_or_zero t) (fst st),
          snd st + amount_or_zero t)
    else st.
Proof.
  unfold group_step, matching, amount_or_zero, amount_of.
  destruct (at_least 5 t && (nth 0 t "" =? flow_type)%string);
    [|reflexivity].
  now destruct (py_float (nth 2 t "")).
Qed.

Lemma group_loop_snoc key flow_type ts t :
  group_loop key flow_type (ts ++ [t])
  = group_step key flow_type (group_loop key flow_type ts) t.
Proof. unfold group_loop. now rewrite fold_left_app. Qed.

Lemma filter_snoc {A} (p : A -> bool) l x :
  filter p (l ++ [x]) = filter p l ++ (if p x then [x] else []).
Proof. now rewrite filter_app. Qed.

(** The running total is the sum over the matching transactions. *)
Lemma group_loop_total key flow_type ts :
  snd (group_loop key flow_type ts) = flow_total flow_type ts.
Proof.
  induction ts as [|t ts IH] using rev_ind; [reflexivity|].
  rewrite group_loop_snoc, group_step_matching.
  unfold flow_total. rewrite filter_snoc.
  destruct (matching flow_type t); cbn [fst snd].
  - rewrite map_app. cbn [map]. now rewrite fsum_snoc, IH.
  - now rewrite app_nil_r, IH.
Qed.

(** The dict holds, for each name, the sum over its group. *)
Lemma group_loop_get key flow_type ts k :
  dict_get k (fst (group_loop key flow_type ts))
  = group_total key flow_type ts k.
Proof.
  induction ts as [|t ts IH] using rev_ind; [reflexivity|].
  rewrite group_loop_snoc, group_step_matching.
  unfold group_total, in_group in *. rewrite filter_snoc.
  destruct (matching flow_type t); cbn [fst snd andb].
  - rewrite dict_get_add.
    destruct (nth key t "" =? k)%string eqn:E.
    + rewrite map_app. cbn [map]. rewrite fsum_snoc, <- IH.
      apply String.eqb_eq in E. now subst k.
    + now rewrite app_nil_r, IH.
  - now rewrite app_nil_r, IH.
Qed.

Lemma group_loop_keys key flow_type ts k :
  In k (map fst (fst (group_loop key flow_type ts)))
  <-> In k (map (fun t => nth key t "") (filter (matching flow_type) ts)).
Proof.
  induction ts as [|t ts IH] using rev_ind; [reflexivity|].
  rewrite group_loop_snoc, group_step_matching, filter_snoc.
  destruct (matching flow_type t); cbn [fst snd].
  - rewrite dict_add_keys, map_app, in_app_iff, IH. simpl. intuition.
  - now rewrite app_nil_r, IH.
Qed.

Lemma group_loop_NoDup key flow_type ts :
  NoDup (map fst (fst (group_loop key flow_type ts))).
Proof.
  induction ts as [|t ts IH] using rev_ind; [constructor|].
  rewrite group_loop_snoc, group_step_matching.
  destruct (matching flow_type t); simpl; [now apply dict_add_NoDup | exact IH].
Qed.

(** The dict is the groups of the flow with their totals, in some
    order. *)
Lemma group_loop_groups key flow_type ts :
  Permutation (fst (group_loop key flow_type ts)) (groups key flow_type ts).
Proof.
  pose proof (group_loop_NoDup key flow_type ts) as Hnd.
  apply NoDup_Permutation.
  - eapply NoDup_map_inv, Hnd.
  - apply NoDup_map_inv with (f := fst). unfold groups.
    rewrite map_map. simpl. rewrite map_id. apply NoDup_nodup.
  - intros [k v]. rewrite (dict_in_get _ Hnd), group_loop_keys, group_loop_get.
    unfold groups, group_names. split.
    + intros [Hk <-]. apply in_map_iff. exists k.
      split; [reflexivity|]. now apply nodup_In.
    + intros H. apply in_map_iff in H. destruct H as (k' & E & Hk).
      injection E as -> <-. apply nodup_In in Hk. now split.
Qed.

Lemma group_stats_eq key ts flow_type :
  group_stats key ts flow_type
  = map (fun na => (fst na, snd na,
                    percentage_of (snd (group_loop key flow_type ts)) (snd na)))
        (firstn 5 (py_sorted (fst (group_loop key flow_type ts)))).
Proof.
  unfold group_stats. destruct (group_loop key flow_type ts) as [d T]. simpl.
  apply map_ext. now intros [name amount].
Qed.

(** What either statistics function returns, for the column it groups
    on. *)
Lemma group_stats_ranked key ts flow_type :
  ranked_top5 key flow_type ts (group_stats key ts flow_type) /\
  (List.length (group_stats key ts flow_type) <= 5)%nat.
Proof.
  rewrite group_stats_eq. split.
  - exists (py_sorted (fst (group_loop key flow_type ts))).
    split; [|split; [|split]].
    + eapply Permutation_trans;
        [apply py_sorted_perm | apply group_loop_groups].
    + intros Hnn. apply py_sorted_descending.
      eapply Permutation_Forall; [apply py_sorted_perm | exact Hnn].
    + rewrite map_map. cbn [stat_name stat_total fst snd].
      rewrite <- (map_id (firstn 5 _)) at 2. apply map_ext. now intros [k v].
    + apply Forall_map, Forall_forall. intros [k v] _.
      cbn [stat_percentage stat_total fst snd].
      now rewrite group_loop_total.
  - rewrite length_map. apply firstn_le_length.
Qed.

(** C2, as the program has it: for every sequence of transactions and
    every flow, each of the two statistics functions keeps the transactions
    of the flow whose amount [float] accepts (nan and inf are accepted),
    adds the amounts per label (per type) in the order of the log, in
    binary64, returns at most the first five of an arrangement of the
    groups, which is in descending order of total whenever no total is a
    NaN, and gives each the percentage group_total / total_amount * 100,
    the quotient taken first, when total_amount > 0 and 0 otherwise (so 0
    for a total that is a NaN), total_amount being the amounts of all the
    transactions kept, whatever their group, added in the order of the
    log. *)
Theorem aggregator_ranks_top5 (transactions : list row) (flow_type : string) :
  ranked_top5 1 flow_type transactions
              (calculate_label_stats transactions flow_type)
  /\ (List.length (calculate_label_stats transactions flow_type) <= 5)%nat
  /\ ranked_top5 3 flow_type transactions
                 (calculate_type_stats transactions flow_type)
  /\ (List.length (calculate_type_stats transactions flow_type) <= 5)%nat.
Proof.
  unfold calculate_label_stats, calculate_type_stats.
  destruct (group_stats_ranked 1 transactions flow_type).
  destruct (group_stats_ranked 3 transactions flow_type).
  auto.
Qed.

(** *** The balance calculator *)

Lemma counted_flows_apart t :
  counted "Expense" t = true -> counted "Income" t = false.
Proof.
  unfold counted. destruct (field t 0) as [f|]; [|discriminate].
  destruct (field t 2) as [s|]; [|discriminate].
  destruct (f =? "Expense")%string eqn:E; [|discriminate].
  apply String.eqb_eq in E. now subst f.
Qed.

Lemma totals_step_counted st t :
  totals_step st t
  = if counted "Expense" t then (fst st + amount_or_zero t, snd st)
    else if counted "Income" t then (fst st, snd st + amount_or_zero t)
    else st.
Proof.
  unfold totals_step, counted, amount_or_zero, amount_of, field.
  destruct t as [|f [|b [|s t]]]; try reflexivity.
  cbn [nth_error nth].
  destruct (py_float s); [|now rewrite !andb_false_r].
  rewrite !andb_true_r.
  destruct (f =? "Expense")%string; [reflexivity|].
  now destruct (f =? "Income")%string.
Qed.

Lemma fold_totals_counted ts :
  fold_left totals_step ts (0, 0)
  = (counted_total "Expense" ts, counted_total "Income" ts).
Proof.
  induction ts as [|t ts IH] using rev_ind; [reflexivity|].
  rewrite fold_left_app. cbn [fold_left]. rewrite IH, totals_step_counted.
  unfold counted_total. rewrite !filter_snoc. cbn [fst snd].
  destruct (counted "Expense" t) eqn:E.
  - rewrite (counted_flows_apart t E), app_nil_r, map_app. cbn [map].
    now rewrite fsum_snoc.
  - destruct (counted "Income" t).
    + rewrite app_nil_r, map_app. cbn [map]. now rewrite fsum_snoc.
    + now rewrite !app_nil_r.
Qed.

(** On rows with their five fields the balance calculator and the
    aggregator count the same transactions. *)
Lemma counted_matching flow_type t :
  at_least 5 t = true -> counted flow_type t = matching flow_type t.
Proof.
  unfold counted, matching, amount_of, field.
  destruct t as [|a [|b [|c [|d [|e t]]]]]; try discriminate.
  reflexivity.
Qed.

Lemma matching_counted flow_type t :
  matching flow_type t = true -> counted flow_type t = true.
Proof.
  intros H. rewrite counted_matching; [exact H|].
  unfold matching in H. now destruct (at_least 5 t).
Qed.

(** C9, as the program has it: on the empty sequence the balance
    calculator returns total expenses 0 and total income 0, so the balance
    is 0; on every sequence it returns the amounts of the Expense rows, and
    those of the Income rows, that have a flow field, an amount field and an
    amount [float] accepts, added in binary64 in the order of the log, every
    other row being skipped.  [float] accepts nan and inf: such a row is
    counted like any other and makes the total a NaN or infinite.  The
    dashboard variant does the same over the rows of the log that have
    their five fields, and returns (0, 0) when there is no log. *)
Theorem totals_sum_well_formed_rows :
  calculate_totals [] = (0, 0)
  /\ snd (calculate_totals []) - fst (calculate_totals []) = 0
  /\ (forall ts,
         calculate_totals ts
         = (counted_total "Expense" ts, counted_total "Income" ts))
  /\ (forall ts1 r ts2,
         counted "Expense" r = false -> counted "Income" r = false ->
         calculate_totals (ts1 ++ r :: ts2) = calculate_totals (ts1 ++ ts2))
  /\ calculate_all_time_totals None = Returned (0, 0)
  /\ (forall header rows,
         calculate_all_time_totals (Some (header :: rows))
         = Returned (counted_total "Expense" (filter (at_least 5) rows),
                     counted_total "Income" (filter (at_least 5) rows))).
Proof.
  split; [reflexivity|]. split; [reflexivity|]. split; [|split; [|split]].
  - intros ts. apply fold_totals_counted.
  - intros ts1 r ts2 HE HI. unfold calculate_totals.
    rewrite !fold_left_app. cbn [fold_left].
    now rewrite (totals_step_counted _ r), HE, HI.
  - reflexivity.
  - intros header rows. unfold calculate_all_time_totals.
    now rewrite fold_totals_counted.
Qed.

(** *** Rows the grouping loop skips, rows it counts *)

Lemma group_loop_skip key flow_type ts1 r ts2 :
  matching flow_type r = false ->
  group_loop key flow_type (ts1 ++ r :: ts2)
  = group_loop key flow_type (ts1 ++ ts2).
Proof.
  intros H. unfold group_loop. rewrite !fold_left_app. cbn [fold_left].
  now rewrite (group_step_matching _ _ _ r), H.
Qed.

Lemma group_stats_skip key flow_type ts1 r ts2 :
  matching flow_type r = false ->
  group_stats key (ts1 ++ r :: ts2) flow_type
  = group_stats key (ts1 ++ ts2) flow_type.
Proof.
  intros H. unfold group_stats. now rewrite (group_loop_skip _ _ _ _ _ H).
Qed.

Lemma group_stats_none key flow_type ts :
  Forall (fun t => matching flow_type t = false) ts ->
  group_stats key ts flow_type = [].
Proof.
  intros H. assert (E : group_loop key flow_type ts = ([], 0)).
  { unfold group_loop. generalize ([] : list (string * float), 0).
    induction H as [|t ts Ht _ IH]; intros st; [reflexivity|].
    cbn [fold_left]. now rewrite group_step_matching, Ht. }
  unfold group_stats. rewrite E.
  now rewrite (Permutation_nil (Permutation_sym (py_sorted_perm []))).
Qed.

Lemma matching_of_amount flow_type r a :
  at_least 5 r = true -> nth 0 r "" = flow_type -> amount_of r = Some a ->
  matching flow_type r = true /\ amount_or_zero r = a.
Proof.
  intros H5 H0 Ha. unfold matching, amount_or_zero.
  now rewrite H5, H0, Ha, String.eqb_refl.
Qed.

Lemma unmatched_of_amount flow_type r :
  amount_of r = None -> matching flow_type r = false.
Proof.
  intros Ha. unfold matching. rewrite Ha. apply andb_false_r.
Qed.

(** A row of the flow with an amount [float] accepts adds that amount, of
    whatever sign, to the total of the flow and to the total of its group
    when the loop comes to it. *)
Lemma group_loop_counts key flow_type ts1 r ts2 a :
  matching flow_type r = true -> amount_or_zero r = a ->
  group_loop key flow_type (ts1 ++ r :: ts2)
  = fold_left (group_step key flow_type) ts2
              (dict_add (nth key r "") a (fst (group_loop key flow_type ts1)),
               snd (group_loop key flow_type ts1) + a).
Proof.
  intros Hm Ha. unfold group_loop. rewrite fold_left_app. cbn [fold_left].
  now rewrite (group_step_matching _ _ _ r), Hm, Ha.
Qed.

(** C5, as the program has it: while grouping, a row whose amount [float]
    rejects is skipped (the result is what it is without the row), and no
    matching transaction at all gives the empty result; a negative amount,
    like a zero, nan or inf, is accepted by [float] and is not skipped: when
    the loop comes to the row it adds the amount, in binary64, to the total
    of the flow and to the total of the row's group, and goes on from
    there.  Nothing raises: both functions are total. *)
Theorem aggregator_skips_only_non_numbers (flow_type : string) :
  (forall ts1 r ts2,
      amount_of r = None ->
      calculate_label_stats (ts1 ++ r :: ts2) flow_type
      = calculate_label_stats (ts1 ++ ts2) flow_type
      /\ calculate_type_stats (ts1 ++ r :: ts2) flow_type
         = calculate_type_stats (ts1 ++ ts2) flow_type)
  /\ (forall ts,
         Forall (fun t => matching flow_type t = false) ts ->
         calculate_label_stats ts flow_type = []
         /\ calculate_type_stats ts flow_type = [])
  /\ (forall key ts1 r ts2 a,
         at_least 5 r = true -> nth 0 r "" = flow_type ->
         amount_of r = Some a ->
         group_loop key flow_type (ts1 ++ r :: ts2)
         = fold_left (group_step key flow_type) ts2
                     (dict_add (nth key r "") a
                               (fst (group_loop key flow_type ts1)),
                      snd (group_loop key flow_type ts1) + a)
         /\ dict_get (nth key r "")
                     (dict_add (nth key r "") a
                               (fst (group_loop key flow_type ts1)))
            = dict_get (nth key r "") (fst (group_loop key flow_type ts1)) + a).
Proof.
  unfold calculate_label_stats, calculate_type_stats.
  split; [|split].
  - intros ts1 r ts2 Ha.
    pose proof (unmatched_of_amount flow_type r Ha) as Hm.
    split; now apply group_stats_skip.
  - intros ts H. split; now apply group_stats_none.
  - intros key ts1 r ts2 a H5 H0 Ha.
    destruct (matching_of_amount flow_type r a H5 H0 Ha) as [Hm Hz].
    split; [now apply group_loop_counts|].
    now rewrite dict_get_add, String.eqb_refl.
Qed.

(** *** The percentages *)

Lemma totals_of_stats key ts flow_type :
  totals_of (group_stats key ts flow_type)
  = map snd (firstn 5 (ranking key flow_type ts)).
Proof.
  rewrite group_stats_eq. unfold totals_of. rewrite map_map.
  now apply map_ext.
Qed.

Lemma percentages_of_stats key ts flow_type :
  percentages (group_stats key ts flow_type)
  = map (share (flow_total flow_type ts))
        (totals_of (group_stats key ts flow_type)).
Proof.
  rewrite group_stats_eq. unfold percentages, totals_of. rewrite !map_map.
  rewrite group_loop_total. now apply map_ext.
Qed.






(** A flow with one group: the ranking is that group, with the total of
    the flow. *)
Lemma single_group key flow_type ts name :
  group_names key flow_type ts = [name] ->
  ranking key flow_type ts = [(name, flow_total flow_type ts)].
Proof.
  intros Hn. unfold ranking.
  pose proof (Permutation_trans (py_sorted_perm _)
                                (group_loop_groups key flow_type ts)) as Hp.
  unfold groups in Hp. rewrite Hn in Hp. cbn [map] in Hp.
  apply Permutation_sym, Permutation_length_1_inv in Hp. rewrite Hp.
  f_equal. f_equal. unfold group_total, flow_total. f_equal. f_equal.
  apply filter_ext_in. intros t Ht. unfold in_group.
  destruct (matching flow_type t) eqn:Em; [|reflexivity]. cbn [andb].
  apply String.eqb_eq.
  assert (Hin : In (nth key t "") (group_names key flow_type ts)).
  { unfold group_names. apply nodup_In, in_map_iff. exists t.
    split; [reflexivity|]. now apply filter_In. }
  rewrite Hn in Hin. now destruct Hin as [<-|[]].
Qed.

Lemma group_stats_single key flow_type ts name :
  group_names key flow_type ts = [name] ->
  group_stats key ts flow_type
  = [(name, flow_total flow_type ts,
      share (flow_total flow_type ts) (flow_total flow_type ts))].
Proof.
  intros Hn. rewrite group_stats_eq. fold (ranking key flow_type ts).
  rewrite (single_group _ _ _ _ Hn). cbn [firstn map fst snd].
  now rewrite group_loop_total.
Qed.



(** *** The aggregator against the balance calculator *)

Lemma total_for_counted (f : flow) ts :
  total_for f (calculate_totals ts) = counted_total (flow_name f) ts.
Proof.
  unfold calculate_totals. rewrite fold_totals_counted. now destruct f.
Qed.

(** On rows with their five fields the total the aggregator divides by is
    the total of the balance calculator. *)
Lemma flow_total_counted flow_type ts :
  Forall (fun t => at_least 5 t = true) ts ->
  flow_total flow_type ts = counted_total flow_type ts.
Proof.
  intros H. unfold flow_total, counted_total. f_equal. f_equal.
  apply filter_ext_in. intros t Ht. symmetry. apply counted_matching.
  rewrite Forall_forall in H. now apply H.
Qed.

(** C4, as the program has it: over transactions with their five fields,
    as the period filter returns them, the total_amount the label ranking
    divides by is the total of flow F of the balance calculator, the same
    amounts added in the same order; a flow with a single label gets that
    total back as the one total returned, and a flow with no label
    nothing.  With more labels the totals returned and the total of the
    flow are separate binary64 sums, and neither the order claimed nor the
    count of labels follows: a negative amount, or rounding with positive
    amounts, puts the sum of the totals returned above the total of the
    flow, and a sixth label of amount 0 leaves the two equal. *)
Theorem label_totals_against_flow_total (transactions : list row) (f : flow) :
  Forall (fun t => at_least 5 t = true) transactions ->
  percentages (calculate_label_stats transactions (flow_name f))
  = map (share (total_for f (calculate_totals transactions)))
        (totals_of (calculate_label_stats transactions (flow_name f)))
  /\ (forall name,
         group_names 1 (flow_name f) transactions = [name] ->
         totals_of (calculate_label_stats transactions (flow_name f))
         = [total_for f (calculate_totals transactions)])
  /\ (group_names 1 (flow_name f) transactions = [] ->
      totals_of (calculate_label_stats transactions (flow_name f)) = []).
Proof.
  intros H5. rewrite total_for_counted, <- (flow_total_counted _ _ H5).
  unfold calculate_label_stats. split; [apply percentages_of_stats|]. split.
  - intros name Hn. now rewrite (group_stats_single _ _ _ _ Hn).
  - intros Hn. rewrite totals_of_stats. unfold ranking.
    pose proof (Permutation_trans
                  (py_sorted_perm _)
                  (group_loop_groups 1 (flow_name f) transactions)) as Hp.
    unfold groups in Hp. rewrite Hn in Hp. cbn [map] in Hp.
    apply Permutation_sym, Permutation_nil in Hp. now rewrite Hp.
Qed.

End AggregatorFacts.

(** * Examples

    Runs of the program on the sample data, with the CPython instance. *)

Section Examples.
Import Sample.
Local Open Scope Z_scope.



(** Counting a rent transaction in, and out, with the duplicate rows. *)
Lemma counters_touch_first_duplicate_only_witness :
  (exists r',
      label_rows (update_label_count labels "Home" "Rent")
      = [] ++ r' :: [["Home"; "Rent"; "7"]; ["Meals"; "Food"; "1"]] /\
      (Forall (fun x => is_triple x = true) [] ->
       forall c n, ["Home"; "Rent"; "3"] = ["Home"; "Rent"; c] ->
                   py_int c = Some n -> r' = ["Home"; "Rent"; py_str (n + 1)])) /\
  (exists r',
      label_rows (decrement_label_count labels "Home" "Rent")
      = [] ++ r' :: [["Home"; "Rent"; "7"]; ["Meals"; "Food"; "1"]] /\
      (Forall (fun x => is_triple x = true) [] ->
       forall c n, ["Home"; "Rent"; "3"] = ["Home"; "Rent"; c] ->
                   py_int c = Some n ->
                   r' = ["Home"; "Rent"; py_str (Z.max 0 (n - 1))])) /\
  (exists r',
      type_rows (update_type_count types "Home")
      = [["Meals"; "1"]] ++ r' :: [["Home"; "9"]] /\
      (Forall (fun x => is_pair x = true) [["Meals"; "1"]] ->
       forall c n, ["Home"; "2"] = ["Home"; c] -> py_int c = Some n ->
                   r' = ["Home"; py_str (n + 1)])) /\
  (exists r',
      type_rows (decrement_type_count types "Home")
      = [["Meals"; "1"]] ++ r' :: [["Home"; "9"]] /\
      (Forall (fun x => is_pair x = true) [["Meals"; "1"]] ->
       forall c n, ["Home"; "2"] = ["Home"; c] -> py_int c = Some n ->
                   r' = ["Home"; py_str (Z.max 0 (n - 1))])).
Proof.
  apply (counters_touch_first_duplicate_only
           labels types "Home" "Rent"
           [] [["Home"; "Rent"; "7"]; ["Meals"; "Food"; "1"]]
           [["Meals"; "1"]] [["Home"; "9"]]
           ["Home"; "Rent"; "3"] ["Home"; "2"]);
    try reflexivity; repeat constructor.
Defined.

(** The first duplicate goes from 3 to 4, the second stays at 7. *)
Example update_with_duplicates :
  update_label_count labels "Home" "Rent"
  = Some [["Home"; "Rent"; "4"]; ["Home"; "Rent"; "7"]; ["Meals"; "Food"; "1"]].
Proof. reflexivity. Qed.

(** At noon of 03/01/2025, with a log that starts on 01/01/2025, the last
    seven days count 3 days. *)
Lemma days_in_period_formula_witness :
  get_days_in_period log noon "Last 7 days" [] = Returned 3.
Proof.
  apply (proj1 (proj2 (days_in_period_formula log noon []))
               "Last 7 days" 7 header [rent; refund] (midnight 739252)).
  - reflexivity.
  - reflexivity.
  - split; [now left|]. intros x [<- | [<- | []]]; reflexivity.
Defined.

(** C6 as stated fails: for the selector "Yesterday", which is none of the
    five, the filter returns the whole log as All Time does, but the day
    count is 1 where the All Time day count of the same set is 3. *)
Lemma unknown_period_counterexample :
  known_period "Yesterday" = false
  /\ get_filtered_transactions log noon "Yesterday" = Returned [rent; refund]
  /\ get_days_in_period log noon "Yesterday" [rent; refund] = Returned 1
  /\ get_days_in_period log noon "All Time" [rent; refund] = Returned 3.
Proof. repeat split; reflexivity. Qed.

Lemma unknown_period_fallback_witness :
  get_filtered_transactions log noon "Yesterday"
  = get_filtered_transactions log noon "All Time"
  /\ (forall header rows,
         log = Some (header :: rows) ->
         get_filtered_transactions log noon "Yesterday"
         = Returned (filter (at_least 5) rows))
  /\ (log = None -> get_filtered_transactions log noon "Yesterday" = Returned [])
  /\ (log <> Some [] ->
      get_days_in_period log noon "Yesterday" [rent; refund] = Returned 1).
Proof.
  apply (unknown_period_fallback log noon "Yesterday" [rent; refund]).
  reflexivity.
Defined.

(** C7 as stated fails: at noon of 03/01/2025 the Today filter returns the
    transaction dated 04/01/2025, which is not of now's calendar date. *)
Lemma today_filter_counterexample :
  get_filtered_transactions log_ahead noon "Today" = Returned [bus]
  /\ row_day bus = Some 739255
  /\ ordinal noon = 739254
  /\ ~ all_returned (fun t => row_day t = Some (ordinal noon))
                    (get_filtered_transactions log_ahead noon "Today").
Proof.
  repeat split; try reflexivity.
  intros H. inversion H as [|? ? Hbus _]. discriminate Hbus.
Qed.

Lemma today_filter_witness :
  cutoff_date "Today" noon = Some (start_of_day noon)
  /\ get_filtered_transactions log noon "Today"
     = Returned (filter (on_or_after (start_of_day noon))
                        (filter (at_least 5) [rent; refund]))
  /\ (forall t,
         In t (filter (on_or_after (start_of_day noon))
                      (filter (at_least 5) [rent; refund]))
         <-> In t [rent; refund] /\ at_least 5 t = true /\
             exists d, row_day t = Some d /\ ordinal noon <= d)
  /\ ((forall t d, In t [rent; refund] -> row_day t = Some d ->
                   d <= ordinal noon) ->
      all_returned (fun t => row_day t = Some (ordinal noon))
                   (get_filtered_transactions log noon "Today")).
Proof.
  apply (today_filter log noon header [rent; refund]). reflexivity.
Defined.

Local Open Scope float_scope.

(** Two transactions of one label make one group, with all of the total. *)
Lemma aggregator_ranks_top5_witness :
  ranked_top5 1 "Expense" [lunch; dinner]
              (calculate_label_stats [lunch; dinner] "Expense")
  /\ (List.length (calculate_label_stats [lunch; dinner] "Expense") <= 5)%nat
  /\ ranked_top5 3 "Expense" [lunch; dinner]
                 (calculate_type_stats [lunch; dinner] "Expense")
  /\ (List.length (calculate_type_stats [lunch; dinner] "Expense") <= 5)%nat.
Proof. apply (aggregator_ranks_top5 [lunch; dinner] "Expense"). Defined.

Example one_group_of_two :
  calculate_label_stats [lunch; dinner] "Expense" = [("Food", 100, 100)].
Proof. vm_compute. reflexivity. Qed.

(** C2 as stated fails.  The entry dialog lets the amount nan through and
    [float] reads it back from the log; with a group whose total is a NaN
    no arrangement of the groups is in descending order.  And the
    percentage is the quotient times 100, which is not always the float
    100 * group_total / total_amount: for the totals 2 and 1 the program
    returns 66.66666666666666 and 33.33333333333333. *)
Lemma nan_total_counterexample :
  py_float "nan" = Some nan
  /\ groups 1 "Expense" [rent_nan; bus] = [("Rent", nan); ("Bus", 5)]
  /\ (forall arrangement,
         Permutation arrangement (groups 1 "Expense" [rent_nan; bus]) ->
         ~ descending arrangement)
  /\ percentages (calculate_label_stats thirds "Expense")
     = [2 / 3 * 100; 1 / 3 * 100]
  /\ (2 / 3 * 100 =? 100 * 2 / 3) = false
  /\ (1 / 3 * 100 =? 100 * 1 / 3) = false.
Proof.
  assert (E : groups 1 "Expense" [rent_nan; bus] = [("Rent", nan); ("Bus", 5)])
    by (vm_compute; reflexivity).
  split; [reflexivity|]. split; [exact E|]. split;
    [|repeat split; vm_compute; reflexivity].
  rewrite E. intros arrangement Hp Hd.
  pose proof (Permutation_length Hp) as Hlen.
  destruct arrangement as [|x [|y [|z arrangement]]]; try discriminate Hlen.
  inversion Hd as [|? ? _ Hall]; subst.
  inversion Hall as [|? ? Hxy _]; subst.
  assert (Hx : In x [("Rent", nan); ("Bus", 5)])
    by (eapply Permutation_in; [exact Hp | now left]).
  assert (Hy : In y [("Rent", nan); ("Bus", 5)])
    by (eapply Permutation_in; [exact Hp | right; now left]).
  assert (Hr : In ("Rent", nan) [x; y])
    by (eapply Permutation_in; [apply Permutation_sym, Hp | now left]).
  destruct Hx as [<- | [<- | []]]; destruct Hy as [<- | [<- | []]];
    try (vm_compute in Hxy; discriminate Hxy).
  destruct Hr as [Hr | [Hr | []]]; discriminate Hr.
Qed.



(** C4 as stated fails: five labels of 10 and a sixth of -5 make the five
    totals returned sum to 50, above the total 45 of the flow; with the
    positive amounts 0.1, 0.1 and 1.1 over two labels the totals returned,
    1.2000000000000002 and 0.1, sum to 1.3000000000000003, above the total
    1.3 of the flow; and with a sixth label of amount 0 the two sums are
    equal, 50 and 50, though the flow has six distinct labels. *)
Lemma label_totals_claim_counterexample :
  totals_of (calculate_label_stats six_labels "Expense") = [10; 10; 10; 10; 10]
  /\ total_for Expense (calculate_totals six_labels) = 45
  /\ (fsum (totals_of (calculate_label_stats six_labels "Expense"))
      <=? total_for Expense (calculate_totals six_labels)) = false
  /\ map Some (totals_of (calculate_label_stats tenths "Expense"))
     = [py_float "1.2000000000000002"; py_float "0.1"]
  /\ Some (fsum (totals_of (calculate_label_stats tenths "Expense")))
     = py_float "1.3000000000000003"
  /\ Some (total_for Expense (calculate_totals tenths)) = py_float "1.3"
  /\ (fsum (totals_of (calculate_label_stats tenths "Expense"))
      <=? total_for Expense (calculate_totals tenths)) = false
  /\ fsum (totals_of (calculate_label_stats six_with_zero "Expense"))
     = total_for Expense (calculate_totals six_with_zero)
  /\ List.length (group_names 1 "Expense" six_with_zero) = 6%nat.
Proof. repeat split; vm_compute; reflexivity. Qed.

(** One label, Food: the total returned is the total of the flow. *)
Lemma label_totals_against_flow_total_witness :
  percentages (calculate_label_stats [lunch; dinner] (flow_name Expense))
  = map (share (total_for Expense (calculate_totals [lunch; dinner])))
        (totals_of (calculate_label_stats [lunch; dinner] (flow_name Expense)))
  /\ totals_of (calculate_label_stats [lunch; dinner] (flow_name Expense))
     = [total_for Expense (calculate_totals [lunch; dinner])].
Proof.
  destruct (label_totals_against_flow_total [lunch; dinner] Expense)
    as (Hshare & Hone & _); [repeat constructor|].
  split; [exact Hshare|]. apply (Hone "Food"). vm_compute. reflexivity.
Defined.

(** C5 as stated fails: a transaction of -50 is not skipped while
    grouping; with it the total of its group is 50, without it 100.  Nor is
    an amount nan skipped: it makes the total of its group a NaN. *)
Lemma negative_amount_counterexample :
  totals_of (calculate_label_stats [rent; rent_back] "Expense") = [50]
  /\ totals_of (calculate_label_stats [rent] "Expense") = [100]
  /\ snd (group_loop 1 "Expense" [rent; rent_back]) = 50
  /\ snd (group_loop 1 "Expense" [rent]) = 100
  /\ (50 =? 100) = false
  /\ totals_of (calculate_label_stats [rent; rent_nan] "Expense") = [nan].
Proof. repeat split; vm_compute; reflexivity. Qed.

Lemma aggregator_skips_only_non_numbers_witness :
  (calculate_label_stats ([rent] ++ garbled :: [lunch]) "Expense"
   = calculate_label_stats ([rent] ++ [lunch]) "Expense"
   /\ calculate_type_stats ([rent] ++ garbled :: [lunch]) "Expense"
      = calculate_type_stats ([rent] ++ [lunch]) "Expense")
  /\ (calculate_label_stats [salary] "Expense" = []
      /\ calculate_type_stats [salary] "Expense" = [])
  /\ (group_loop 1 "Expense" ([rent] ++ rent_back :: [lunch])
      = fold_left (group_step 1 "Expense") [lunch]
                  (dict_add (nth 1 rent_back "") (-50)
                            (fst (group_loop 1 "Expense" [rent])),
                   snd (group_loop 1 "Expense" [rent]) + -50)
      /\ dict_get (nth 1 rent_back "")
                  (dict_add (nth 1 rent_back "") (-50)
                            (fst (group_loop 1 "Expense" [rent])))
         = dict_get (nth 1 rent_back "") (fst (group_loop 1 "Expense" [rent]))
           + -50).
Proof.
  pose proof (aggregator_skips_only_non_numbers "Expense") as (Hskip & Hnone & Hneg).
  split; [|split].
  - apply (Hskip [rent] garbled [lunch]). vm_compute. reflexivity.
  - apply (Hnone [salary]). repeat constructor.
  - apply (Hneg 1%nat [rent] rent_back [lunch] (-50));
      vm_compute; reflexivity.
Defined.

(** C9 as stated fails: the row with the amount nan has its five fields
    and is not skipped; it makes the total of the expenses a NaN, where
    the other rows alone give 100. *)
Lemma nan_amount_counterexample :
  at_least 5 rent_nan = true
  /\ py_float "nan" = Some nan
  /\ calculate_totals [rent; rent_nan; salary] = (nan, 150)
  /\ calculate_totals [rent; salary] = (100, 150)
  /\ is_nan (fst (calculate_totals [rent; rent_nan; salary])) = true.
Proof. repeat split; vm_compute; reflexivity. Qed.

(** An expense of 100 and an income of 150: totals (100, 150). *)
Lemma totals_sum_well_formed_rows_witness :
  calculate_totals [rent; ["Expense"; "Rent"]; garbled; salary]
  = calculate_totals [rent; salary]
  /\ calculate_totals [rent; salary]
     = (counted_total "Expense" [rent; salary],
        counted_total "Income" [rent; salary]).
Proof.
  destruct totals_sum_well_formed_rows as (_ & _ & Hsum & Hskip & _ & _).
  split; [|apply Hsum].
  transitivity (calculate_totals [rent; garbled; salary]).
  - apply (Hskip [rent] ["Expense"; "Rent"] [garbled; salary]);
      vm_compute; reflexivity.
  - apply (Hskip [rent] garbled [salary]); vm_compute; reflexivity.
Defined.

Example balance_scenario : calculate_totals [rent; salary] = (100, 150).
Proof. vm_compute. reflexivity. Qed.

End Examples.

(** * More properties

    What the code shows beyond the claims: bounds and error behaviour of the
    day count, how the periods nest, how adding and deleting compose, what
    the catalogs keep. *)

Local Open Scope Z_scope.

(** ** Day arithmetic *)

Lemma floor_days k m : 0 <= m < US_PER_DAY -> (k * US_PER_DAY + m) / US_PER_DAY = k.
Proof.
  intros Hm. rewrite Z.div_add_l by (unfold US_PER_DAY; lia).
  rewrite Z.div_small by exact Hm. lia.
Qed.

Lemma days_between_midnights hi lo :
  days_between (midnight hi) (midnight lo) = hi - lo.
Proof.
  unfold days_between, to_micros, midnight. simpl.
  replace (hi * US_PER_DAY + 0 - (lo * US_PER_DAY + 0))
    with ((hi - lo) * US_PER_DAY + 0) by lia.
  apply floor_days. unfold US_PER_DAY. lia.
Qed.

Lemma days_since_midnight now d :
  wf_datetime now -> days_between now (midnight d) = ordinal now - d.
Proof.
  intros Hwf. unfold days_between, to_micros, midnight. simpl.
  replace (ordinal now * US_PER_DAY + micros now - (d * US_PER_DAY + 0))
    with ((ordinal now - d) * US_PER_DAY + micros now) by lia.
  now apply floor_days.
Qed.

Lemma days_since_minus now n : days_between now (minus_days now n) = n.
Proof.
  unfold days_between, to_micros, minus_days. simpl.
  replace (ordinal now * US_PER_DAY + micros now
           - ((ordinal now - n) * US_PER_DAY + micros now))
    with (n * US_PER_DAY + 0) by lia.
  apply floor_days. unfold US_PER_DAY. lia.
Qed.

Section PeriodExtras.
Context {L : PyLib}.

(** Every date the log reader finds is a midnight. *)
Lemma parsed_dates_midnight rows e :
  In e (parsed_dates rows) -> e = midnight (ordinal e).
Proof.
  induction rows as [|r rows IH]; [contradiction|]. simpl.
  unfold row_date. destruct (row_day r) as [d|]; simpl; [|exact IH].
  intros [<- | H]; [reflexivity | now apply IH].
Qed.

Lemma days_in_period_ge_1 log now period ts n :
  get_days_in_period log now period ts = Returned n -> 1 <= n.
Proof.
  unfold get_days_in_period.
  destruct (period =? "Today")%string; [intros [= <-]; lia|].
  destruct log as [[|header rows]|]; [discriminate | | intros [= <-]; lia].
  destruct (parsed_dates (filter (at_least 5) rows)) as [|d ds];
    [intros [= <-]; lia|].
  destruct (period =? "Last 7 days")%string; [intros [= <-]; lia|].
  destruct (period =? "Last 30 days")%string; [intros [= <-]; lia|].
  destruct (period =? "Last 12 months")%string; [intros [= <-]; lia|].
  destruct (period =? "All Time")%string; [|intros [= <-]; lia].
  destruct ts as [|t ts]; [intros [= <-]; lia|].
  destruct (strptime_all (t :: ts)) as [[|e es]|]; try discriminate;
    intros [= <-]; lia.
Qed.

Lemma strptime_all_raises ts e :
  strptime_all ts = Raised e ->
  e = IndexError /\ Exists (fun t => at_least 5 t = false) ts.
Proof.
  induction ts as [|t ts IH]; [discriminate|]. cbn [strptime_all].
  destruct (field t 4) as [s|] eqn:Hs.
  - destruct (strptime_all ts) as [ds|e']; [discriminate|].
    intros [= <-]. destruct (IH eq_refl) as [-> Hex]. split; [reflexivity|].
    now apply Exists_cons_tl.
  - intros [= <-]. split; [reflexivity|]. apply Exists_cons_hd.
    unfold field in Hs.
    destruct t as [|a [|b [|c [|d [|x t]]]]]; try reflexivity. discriminate Hs.
Qed.

(** When the day count raises. *)
Lemma days_in_period_raised log now period transactions :
  (get_days_in_period log now period transactions = Raised StopIteration ->
   log = Some [] /\ period <> "Today")
  /\ (get_days_in_period log now period transactions = Raised IndexError ->
      period = "All Time" /\
      Exists (fun t => at_least 5 t = false) transactions)
  /\ (log = Some [] -> period <> "Today" ->
      get_days_in_period log now period transactions = Raised StopIteration).
Proof.
  unfold get_days_in_period.
  destruct (period =? "Today")%string eqn:E0.
  { apply String.eqb_eq in E0. repeat split; try discriminate.
    all: intros; congruence. }
  apply String.eqb_neq in E0.
  destruct log as [[|header rows]|].
  { repeat split; try discriminate; auto. }
  2: { repeat split; discriminate. }
  destruct (parsed_dates (filter (at_least 5) rows)) as [|d ds];
    [repeat split; discriminate|].
  destruct (period =? "Last 7 days")%string; [repeat split; discriminate|].
  destruct (period =? "Last 30 days")%string; [repeat split; discriminate|].
  destruct (period =? "Last 12 months")%string; [repeat split; discriminate|].
  destruct (period =? "All Time")%string eqn:EA; [|repeat split; discriminate].
  apply String.eqb_eq in EA.
  destruct transactions as [|t ts]; [repeat split; discriminate|].
  destruct (strptime_all (t :: ts)) as [[|e es]|e] eqn:Es;
    try (repeat split; discriminate).
  destruct (strptime_all_raises _ _ Es) as [-> Hex].
  repeat split; try discriminate; auto.
Qed.

(** X1: whenever the day count returns, it returns 1 at least, for every
    log, clock, period and list of transactions: each branch ends in
    max(1, ...) or in 1, so the averages are never divided by 0 or by a
    negative count; for Today it returns 1 without opening the log. *)
Theorem day_count_at_least_1 (log : csv_file) (now : datetime) (period : string)
        (transactions : list row) :
  (forall n, get_days_in_period log now period transactions = Returned n ->
             1 <= n)
  /\ get_days_in_period log now "Today" transactions = Returned 1.
Proof.
  split; [intros n; apply days_in_period_ge_1 | reflexivity].
Qed.

(** The start the day count of a rolling period works from, in days. *)
Lemma rolling_days now n d :
  wf_datetime now -> 0 < n ->
  Z.max 1 (days_between now (dt_max (minus_days now n) (midnight d)) + 1)
  = Z.max 1 (Z.min n (ordinal now - d) + 1).
Proof.
  intros Hwf Hn. unfold dt_max.
  destruct (dt_leb (midnight d) (minus_days now n)) eqn:E.
  - rewrite days_since_minus.
    assert (d <= ordinal now - n).
    { revert E. unfold midnight, minus_days. dt_bools. lia. }
    lia.
  - rewrite (days_since_midnight now d Hwf).
    assert (ordinal now - n < d).
    { revert E. unfold midnight, minus_days. destruct Hwf. dt_bools. lia. }
    lia.
Qed.

(** X2: for a rolling period of N days (7, 30, 365) over a log whose
    earliest date is the day [first_day], the day count is
    max(1, min(N, today - first_day) + 1): it counts the days since the
    first transaction, both ends included, and is capped at N + 1, not at
    N. *)
Theorem rolling_day_count (now : datetime) (period : string) (n first_day : Z)
        (header : row) (rows transactions : list row) :
  wf_datetime now ->
  window_days period = Some n ->
  is_earliest (midnight first_day) (parsed_dates (filter (at_least 5) rows)) ->
  get_days_in_period (Some (header :: rows)) now period transactions
  = Returned (Z.max 1 (Z.min n (ordinal now - first_day) + 1))
  /\ 1 <= Z.max 1 (Z.min n (ordinal now - first_day) + 1) <= n + 1
  /\ (first_day <= ordinal now - n ->
      get_days_in_period (Some (header :: rows)) now period transactions
      = Returned (n + 1)).
Proof.
  intros Hwf Hw Hmin.
  assert (Hn : 0 < n)
    by (destruct (window_days_cases _ _ Hw) as [[_ ->]|[[_ ->]|[_ ->]]]; lia).
  destruct (parsed_dates (filter (at_least 5) rows)) as [|d ds] eqn:Hd;
    [now destruct Hmin|].
  rewrite (days_rolling header rows now period n transactions d ds Hw Hd).
  rewrite <- (earliest_unique _ _ _ Hmin (min_of_earliest d ds)).
  rewrite (rolling_days now n first_day Hwf Hn).
  split; [reflexivity|]. split; [lia|]. intros Hold. f_equal. lia.
Qed.

(** What the filter returns has its five fields. *)
Lemma filtered_have_five log now period ts :
  get_filtered_transactions log now period = Returned ts ->
  Forall (fun t => at_least 5 t = true) ts.
Proof.
  unfold get_filtered_transactions.
  destruct log as [[|header rows]|]; [discriminate | | intros [= <-]; constructor].
  destruct (period =? "All Time")%string; [intros [= <-]; apply filter_kept|].
  destruct (cutoff_date period now) as [cutoff|]; intros [= <-].
  - apply Forall_forall. intros t Ht. apply filter_In in Ht as [Ht _].
    now apply filter_In in Ht.
  - apply filter_kept.
Qed.

(** On rows with their five fields, and a log with its first line, the day
    count returns. *)
Lemma days_in_period_returns log now period ts :
  log <> Some [] -> Forall (fun t => at_least 5 t = true) ts ->
  exists n, get_days_in_period log now period ts = Returned n /\ 1 <= n.
Proof.
  intros Hlog Hts.
  destruct (get_days_in_period log now period ts) as [n|e] eqn:E.
  - exists n. split; [reflexivity|]. now apply days_in_period_ge_1 in E.
  - exfalso. destruct (days_in_period_raised log now period ts) as (H1 & H2 & _).
    destruct e.
    + now destruct (H1 E).
    + destruct (H2 E) as [_ Hex]. apply Exists_exists in Hex as (t & Hin & Ht).
      rewrite Forall_forall in Hts. rewrite (Hts t Hin) in Ht. discriminate.
Qed.

Lemma on_or_after_mono c1 c2 t :
  dt_leb c2 c1 = true -> on_or_after c1 t = true -> on_or_after c2 t = true.
Proof.
  unfold on_or_after, dt_geb. destruct (row_date t) as [d|]; [|discriminate].
  intros H12 H1. eapply dt_leb_trans; eauto.
Qed.

Lemma filter_narrower {A} (p q : A -> bool) l :
  (forall x, p x = true -> q x = true) ->
  filter p l = filter p (filter q l).
Proof.
  intros H. induction l as [|x l IH]; [reflexivity|]. simpl.
  destruct (p x) eqn:Ep.
  - rewrite (H x Ep). simpl. rewrite Ep. now f_equal.
  - destruct (q x); simpl; [rewrite Ep|]; exact IH.
Qed.

Lemma filtered_by_cutoff header rows now period cutoff :
  (period =? "All Time")%string = false ->
  cutoff_date period now = Some cutoff ->
  get_filtered_transactions (Some (header :: rows)) now period
  = Returned (filter (on_or_after cutoff) (filter (at_least 5) rows)).
Proof. intros HA Hc. simpl. now rewrite HA, Hc. Qed.

(** X3: the periods nest.  Whatever the log and the clock, what Today keeps
    is what Last 7 days keeps and Today's cutoff lets through, and likewise
    from Last 7 days to Last 30 days, to Last 12 months, to All Time: a
    transaction shown for a period is shown, in the same order, for every
    longer one. *)
Theorem periods_nest (log : csv_file) (now : datetime) (ts : list row) :
  (get_filtered_transactions log now "Last 7 days" = Returned ts ->
   get_filtered_transactions log now "Today"
   = Returned (filter (on_or_after (start_of_day now)) ts))
  /\ (get_filtered_transactions log now "Last 30 days" = Returned ts ->
      get_filtered_transactions log now "Last 7 days"
      = Returned (filter (on_or_after (minus_days now 7)) ts))
  /\ (get_filtered_transactions log now "Last 12 months" = Returned ts ->
      get_filtered_transactions log now "Last 30 days"
      = Returned (filter (on_or_after (minus_days now 30)) ts))
  /\ (get_filtered_transactions log now "All Time" = Returned ts ->
      get_filtered_transactions log now "Last 12 months"
      = Returned (filter (on_or_after (minus_days now 365)) ts)).
Proof.
  destruct log as [[|header rows]|].
  - repeat split; discriminate.
  - repeat split; intros [= <-]; simpl; f_equal; try reflexivity;
      apply filter_narrower; intros t; apply on_or_after_mono;
      unfold start_of_day, minus_days, midnight; destruct now; dt_bools; lia.
  - repeat split; intros [= <-]; reflexivity.
Qed.

(** X4: a rolling period of N days keeps the transactions dated after the
    day N days back, and those of that very day only when the clock reads
    midnight sharp: with a clock past midnight, Last 7 days is the seven
    calendar days that end today (and whatever is dated later). *)
Theorem rolling_window_days (now : datetime) (period : string) (n : Z)
        (header : row) (rows : list row) :
  window_days period = Some n ->
  exists ts,
    get_filtered_transactions (Some (header :: rows)) now period = Returned ts
    /\ (forall t,
           In t ts <->
           In t rows /\ at_least 5 t = true /\
           exists d, row_day t = Some d /\
                     (ordinal now - n < d \/
                      (d = ordinal now - n /\ micros now <= 0)))
    /\ (0 < micros now ->
        forall t,
          In t ts <->
          In t rows /\ at_least 5 t = true /\
          exists d, row_day t = Some d /\ ordinal now - n + 1 <= d).
Proof.
  intros Hw.
  assert (Hget : get_filtered_transactions (Some (header :: rows)) now period
                 = Returned (filter (on_or_after (minus_days now n))
                                    (filter (at_least 5) rows))).
  { destruct (window_days_cases _ _ Hw) as [[-> ->]|[[-> ->]|[-> ->]]];
      reflexivity. }
  assert (Hkeep : forall t,
             on_or_after (minus_days now n) t = true <->
             exists d, row_day t = Some d /\
                       (ordinal now - n < d \/
                        (d = ordinal now - n /\ micros now <= 0))).
  { intros t. unfold on_or_after, row_date.
    destruct (row_day t) as [d|]; simpl.
    - unfold minus_days, midnight. dt_bools. split.
      + intros H. exists d. split; [reflexivity | lia].
      + intros (d' & [= <-] & H). lia.
    - split; [discriminate | now intros (d' & E & _)]. }
  eexists. split; [exact Hget|]. split.
  - intros t. rewrite !filter_In, Hkeep. tauto.
  - intros Hpos t. rewrite !filter_In, Hkeep. split.
    + intros ((Hin & H5) & d & Hd & H). repeat split; auto. exists d.
      split; [exact Hd | lia].
    + intros (Hin & H5 & d & Hd & H). repeat split; auto. exists d.
      split; [exact Hd | lia].
Qed.

(** X6: over the whole log, as the All Time filter hands it on, the day
    count is the number of calendar days from the earliest date of the log
    to the latest, both included. *)
Theorem all_time_calendar_days (now now' : datetime) (header : row)
        (rows : list row) (lo hi : Z) :
  is_earliest (midnight lo) (parsed_dates (filter (at_least 5) rows)) ->
  is_latest (midnight hi) (parsed_dates (filter (at_least 5) rows)) ->
  get_filtered_transactions (Some (header :: rows)) now "All Time"
  = Returned (filter (at_least 5) rows)
  /\ get_days_in_period (Some (header :: rows)) now' "All Time"
                        (filter (at_least 5) rows)
     = Returned (hi - lo + 1)
  /\ lo <= hi.
Proof.
  intros Hlo Hhi. split; [reflexivity|].
  assert (Hle : lo <= hi).
  { destruct Hlo as [Hin _], Hhi as [_ Hall]. specialize (Hall _ Hin).
    revert Hall. unfold midnight. dt_bools. lia. }
  split; [|exact Hle].
  destruct (parsed_dates (filter (at_least 5) rows)) as [|d ds] eqn:Hd;
    [now destruct Hlo|].
  rewrite (days_all_time header rows now' _ d ds d ds Hd (filter_kept 5 rows) Hd).
  rewrite <- (earliest_unique _ _ _ Hlo (min_of_earliest d ds)).
  rewrite <- (latest_unique _ _ _ Hhi (max_of_latest d ds)).
  rewrite days_between_midnights. f_equal. lia.
Qed.

End PeriodExtras.

(** ** The general flow panel and the dashboard *)

Section FlowExtras.
Context {L : PyLib}.

Lemma per_day_from_1 total days :
  1 <= days -> per_day total days = (total / py_float_of_int days)%float.
Proof.
  intros Hd. unfold per_day.
  destruct (0 <? days) eqn:E; [reflexivity|]. apply Z.ltb_ge in E. lia.
Qed.

(** X5: on a log that is missing, or that is read as rows with a first
    line, the general flow panel returns its six numbers for every period
    and every reading of the clock: the filter hands the day count only
    rows it can index, the day count is 1 at least, so every average is its
    total divided by the day count, in binary64, and the fallback of the
    averages to 0 is never taken; the balance is the income less the
    expenses. *)
Theorem general_flow_returns (log : csv_file) (now now' : datetime)
        (period : string) :
  log <> Some [] ->
  exists ts days,
    get_filtered_transactions log now period = Returned ts
    /\ get_days_in_period log now' period ts = Returned days
    /\ 1 <= days
    /\ update_general_flow log now now' period
       = Returned
           (mkflow (fst (calculate_totals ts)) (snd (calculate_totals ts))
                   (snd (calculate_totals ts) - fst (calculate_totals ts))%float
                   (fst (calculate_totals ts) / py_float_of_int days)%float
                   (snd (calculate_totals ts) / py_float_of_int days)%float
                   ((snd (calculate_totals ts) - fst (calculate_totals ts))
                    / py_float_of_int days)%float).
Proof.
  intros Hlog. unfold update_general_flow.
  destruct (get_filtered_transactions log now period) as [ts|e] eqn:Ef.
  - destruct (days_in_period_returns log now' period ts Hlog
                (filtered_have_five _ _ _ _ Ef)) as (n & En & Hn).
    exists ts, n. rewrite En.
    destruct (calculate_totals ts) as [expenses income]. cbn [fst snd].
    rewrite !per_day_from_1 by exact Hn. repeat split; auto.
  - exfalso. revert Ef. unfold get_filtered_transactions.
    destruct log as [[|header rows]|]; [congruence | | discriminate].
    destruct (period =? "All Time")%string; [discriminate|].
    destruct (cutoff_date period now); discriminate.
Qed.

(** X8: on a log that is missing, or that is read as rows with a first
    line, the balance of the dashboard is the All Time balance of the
    general flow panel, the same amounts added in the same order; it is
    shown dark green when the comparison balance >= 0 holds and dark red
    otherwise, so a balance that is a NaN is shown dark red. *)
Theorem dashboard_is_all_time (log : csv_file) (now now' : datetime) :
  log <> Some [] ->
  exists balance colour g,
    update_balance log = Returned (balance, colour)
    /\ update_general_flow log now now' "All Time" = Returned g
    /\ balance = total_balance g
    /\ colour = (if (0 <=? balance)%float then "darkgreen" else "darkred")
    /\ (is_nan balance = true -> colour = "darkred").
Proof.
  intros Hlog.
  assert (Hcol : forall b : float,
             is_nan b = true ->
             (if (0 <=? b)%float then "darkgreen" else "darkred") = "darkred").
  { intros b Hb. destruct (compare_nan 0 b (or_intror Hb)) as (-> & _).
    reflexivity. }
  destruct log as [[|header rows]|]; [congruence | |].
  - unfold update_balance, update_general_flow, calculate_all_time_totals.
    cbn [get_filtered_transactions String.eqb Ascii.eqb Bool.eqb].
    unfold calculate_totals.
    destruct (fold_left totals_step (filter (at_least 5) rows) (0%float, 0%float))
      as [expenses income].
    destruct (days_in_period_returns (Some (header :: rows)) now' "All Time"
                (filter (at_least 5) rows)) as (n & -> & _);
      [discriminate | apply filter_kept |].
    eexists _, _, _. split; [reflexivity|]. split; [reflexivity|].
    cbn [total_balance]. repeat split. apply Hcol.
  - eexists _, _, _. split; [reflexivity|]. split; [reflexivity|].
    cbn [total_balance]. repeat split. apply Hcol.
Qed.

End FlowExtras.

(** ** Adding and deleting transactions *)

Section StoreExtras.
Context {L : PyLib}.
Local Open Scope Z_scope.

Lemma rev_del_at {A} (i : nat) (l : list A) :
  (i < List.length l)%nat ->
  rev (del_at i (rev l)) = del_at (List.length l - 1 - i) l.
Proof.
  intros Hi. unfold del_at.
  rewrite rev_app_distr, firstn_rev, skipn_rev, !rev_involutive.
  replace (List.length l - S i)%nat with (List.length l - 1 - i)%nat by lia.
  replace (S (List.length l - 1 - i))%nat with (List.length l - i)%nat by lia.
  reflexivity.
Qed.

Lemma del_at_length {A} (i : nat) (l : list A) :
  (i < List.length l)%nat ->
  List.length (del_at i l) = (List.length l - 1)%nat.
Proof.
  intros Hi. unfold del_at.
  rewrite length_app, length_firstn, length_skipn. lia.
Qed.

(** X9: deleting removes from the log exactly the transaction selected,
    the display being in reverse file order: of the n rows with five
    fields, line [selected] of the display is row n - 1 - selected of the
    file; the first line and the other rows stay, in order (rows with
    fewer than five fields are not written back).  An index past the last
    line changes nothing. *)
Theorem delete_removes_selected (st : store) (selected : nat)
        (header : row) (rows : list row) :
  transactions_database st = Some (header :: rows) ->
  ((selected < List.length (filter (at_least 5) rows))%nat ->
   transactions_database (delete_transaction selected st)
   = Some (header ::
           del_at (List.length (filter (at_least 5) rows) - 1 - selected)
                  (filter (at_least 5) rows))
   /\ nth_error (filter (at_least 5) rows)
                (List.length (filter (at_least 5) rows) - 1 - selected)
      = nth_error (rev (filter (at_least 5) rows)) selected
   /\ List.length (del_at (List.length (filter (at_least 5) rows) - 1 - selected)
                          (filter (at_least 5) rows))
      = (List.length (filter (at_least 5) rows) - 1)%nat)
  /\ ((List.length (filter (at_least 5) rows) <= selected)%nat ->
      delete_transaction selected st = st).
Proof.
  intros Hlog. unfold delete_transaction. rewrite Hlog. cbv zeta. split.
  - intros Hsel.
    destruct (nth_error (rev (filter (at_least 5) rows)) selected) as [t|] eqn:E.
    + cbn [transactions_database]. rewrite rev_del_at by exact Hsel.
      split; [reflexivity|]. split.
      * rewrite <- E, nth_error_rev.
        apply Nat.ltb_lt in Hsel. rewrite Hsel. f_equal. lia.
      * apply del_at_length. lia.
    + apply nth_error_None in E. rewrite length_rev in E. lia.
  - intros Hsel.
    destruct (nth_error (rev (filter (at_least 5) rows)) selected) as [t|] eqn:E;
      [|reflexivity].
    assert (Hsome : nth_error (rev (filter (at_least 5) rows)) selected <> None)
      by congruence.
    apply nth_error_Some in Hsome. rewrite length_rev in Hsome. lia.
Qed.


Lemma label_to_type_some labels name :
  In name (available_labels labels) ->
  exists ty, label_to_type labels name = Some ty.
Proof.
  unfold available_labels. induction labels as [|x labels IH]; [contradiction|].
  simpl. intros [Hx | Hin].
  - destruct (label_to_type labels name); [eauto|].
    rewrite Hx, String.eqb_refl. eauto.
  - destruct (IH Hin) as [ty ->]. eauto.
Qed.

Lemma update_usage_counts_own flow_type label_name type_name c :
  labels_of flow_type (update_usage_counts flow_type label_name type_name c)
  = update_label_count (labels_of flow_type c) type_name label_name
  /\ types_of flow_type (update_usage_counts flow_type label_name type_name c)
     = update_type_count (types_of flow_type c) type_name
  /\ other_labels_of flow_type
                     (update_usage_counts flow_type label_name type_name c)
     = other_labels_of flow_type c
  /\ other_types_of flow_type
                    (update_usage_counts flow_type label_name type_name c)
     = other_types_of flow_type c.
Proof.
  unfold update_usage_counts, labels_of, types_of, other_labels_of,
    other_types_of.
  now destruct (flow_type =? "Expense")%string.
Qed.


(** X12: a transaction added while there is no log file becomes the first
    line of the new file, which every reader takes for the header: no
    period shows it, the balance stays (0, 0), and it cannot be selected
    for deletion.  The label chosen is not the empty string (for that one
    nothing is written and no file is created). *)
Theorem first_transaction_is_lost (st : store) (flow_type : string)
        (selection : nat) (amount current_date label_name : string)
        (lrows : list row) :
  transactions_database st = None ->
  labels_of flow_type (cats st) = Some lrows ->
  nth_error (available_labels (filter (at_least 3) lrows)) selection
  = Some label_name ->
  label_name <> "" ->
  exists type_name,
    transactions_database
      (add_transaction flow_type selection amount current_date st)
    = Some [[flow_type; label_name; amount; type_name; current_date]]
    /\ (forall now period,
           get_filtered_transactions
             (transactions_database
                (add_transaction flow_type selection amount current_date st))
             now period
           = Returned [])
    /\ calculate_all_time_totals
         (transactions_database
            (add_transaction flow_type selection amount current_date st))
       = Returned (0%float, 0%float)
    /\ (forall selected,
           delete_transaction
             selected (add_transaction flow_type selection amount current_date st)
           = add_transaction flow_type selection amount current_date st).
Proof.
  intros Hlog Hl Hsel Hname. unfold add_transaction. rewrite Hl. cbv zeta.
  rewrite Hsel. apply String.eqb_neq in Hname. rewrite Hname.
  destruct (label_to_type_some _ _ (nth_error_In _ _ Hsel)) as [ty Hty].
  rewrite Hty, Hlog. exists ty. cbn [transactions_database append_row].
  split; [reflexivity|]. split; [|split].
  - intros now period. unfold get_filtered_transactions. cbn [filter].
    destruct (period =? "All Time")%string; [reflexivity|].
    now destruct (cutoff_date period now).
  - reflexivity.
  - intros selected. unfold delete_transaction.
    cbn [transactions_database filter rev]. now destruct selected.
Qed.

End StoreExtras.

(** ** The catalogs *)

Section CatalogExtras.
Context {L : PyLib}.
Local Open Scope Z_scope.

Lemma label_count_triple r n :
  label_count r = Some n -> exists a b c, r = [a; b; c] /\ py_int c = Some n.
Proof.
  destruct r as [|a [|b [|c [|d r]]]]; try discriminate.
  intros H. now exists a, b, c.
Qed.

Lemma type_count_pair r n :
  type_count r = Some n -> exists a c, r = [a; c] /\ py_int c = Some n.
Proof.
  destruct r as [|a [|c [|d r]]]; try discriminate.
  intros H. now exists a, c.
Qed.

Lemma counted_labels_kept rows :
  counts_nonneg label_count rows -> filter (at_least 3) rows = rows.
Proof.
  intros H. apply forallb_filter_id, forallb_forall. intros r Hr.
  unfold counts_nonneg in H. rewrite Forall_forall in H.
  destruct (H r Hr) as (n & Hn & _).
  now destruct (label_count_triple r n Hn) as (a & b & c & -> & _).
Qed.

Lemma counted_types_kept rows :
  counts_nonneg type_count rows -> filter (at_least 2) rows = rows.
Proof.
  intros H. apply forallb_filter_id, forallb_forall. intros r Hr.
  unfold counts_nonneg in H. rewrite Forall_forall in H.
  destruct (H r Hr) as (n & Hn & _).
  now destruct (type_count_pair r n Hn) as (a & c & -> & _).
Qed.

Lemma scan_labels_nonneg f ty lb rows rows' :
  (forall n, 0 <= n -> 0 <= f n) ->
  counts_nonneg label_count rows ->
  scan_labels f ty lb rows = Some rows' ->
  counts_nonneg label_count rows'.
Proof.
  intros Hf. revert rows'.
  induction rows as [|r rows IH]; intros rows' Hall; [now intros [= <-]|].
  inversion Hall as [|? ? (n & Hn & Hn0) Hrest]; subst.
  destruct (label_count_triple r n Hn) as (a & b & c & -> & Hc).
  cbn [scan_labels].
  destruct ((a =? ty)%string && (b =? lb)%string).
  - rewrite Hc. intros [= <-]. constructor; [|exact Hrest].
    exists (f n). split; [apply py_int_str | now apply Hf].
  - destruct (scan_labels f ty lb rows) as [rest'|]; [|discriminate].
    intros [= <-]. constructor; [now exists n | now apply IH].
Qed.

Lemma scan_types_nonneg f ty rows rows' :
  (forall n, 0 <= n -> 0 <= f n) ->
  counts_nonneg type_count rows ->
  scan_types f ty rows = Some rows' ->
  counts_nonneg type_count rows'.
Proof.
  intros Hf. revert rows'.
  induction rows as [|r rows IH]; intros rows' Hall; [now intros [= <-]|].
  inversion Hall as [|? ? (n & Hn & Hn0) Hrest]; subst.
  destruct (type_count_pair r n Hn) as (a & c & -> & Hc).
  cbn [scan_types].
  destruct (a =? ty)%string.
  - rewrite Hc. intros [= <-]. constructor; [|exact Hrest].
    exists (f n). split; [apply py_int_str | now apply Hf].
  - destruct (scan_types f ty rows) as [rest'|]; [|discriminate].
    intros [= <-]. constructor; [now exists n | now apply IH].
Qed.

Lemma rewrite_labels_nonneg f file ty lb :
  (forall n, 0 <= n -> 0 <= f n) ->
  counts_nonneg label_count (label_rows file) ->
  counts_nonneg label_count
                (label_rows (rewrite_file 3 (scan_labels f ty lb) file)).
Proof.
  intros Hf H. destruct file as [rows|]; [|exact H].
  unfold rewrite_file. cbn [label_rows] in H.
  destruct (scan_labels f ty lb (filter (at_least 3) rows)) as [rows'|] eqn:E;
    [|exact H].
  pose proof (scan_labels_nonneg f ty lb _ _ Hf H E) as H'.
  cbn [label_rows]. now rewrite counted_labels_kept.
Qed.

Lemma rewrite_types_nonneg f file ty :
  (forall n, 0 <= n -> 0 <= f n) ->
  counts_nonneg type_count (type_rows file) ->
  counts_nonneg type_count (type_rows (rewrite_file 2 (scan_types f ty) file)).
Proof.
  intros Hf H. destruct file as [rows|]; [|exact H].
  unfold rewrite_file. cbn [type_rows] in H.
  destruct (scan_types f ty (filter (at_least 2) rows)) as [rows'|] eqn:E;
    [|exact H].
  pose proof (scan_types_nonneg f ty _ _ Hf H E) as H'.
  cbn [type_rows]. now rewrite counted_types_kept.
Qed.

(** X13: usage counts stay integers that are not negative: when every
    count of a labels file (of a types file) is one, it still is after each
    of the four counter functions, whatever key they are called with. *)
Theorem counts_stay_nonneg (labels_file types_file : csv_file)
        (type_name label_name : string) :
  counts_nonneg label_count (label_rows labels_file) ->
  counts_nonneg type_count (type_rows types_file) ->
  counts_nonneg label_count
                (label_rows (update_label_count labels_file type_name label_name))
  /\ counts_nonneg label_count
       (label_rows (decrement_label_count labels_file type_name label_name))
  /\ counts_nonneg type_count
       (type_rows (update_type_count types_file type_name))
  /\ counts_nonneg type_count
       (type_rows (decrement_type_count types_file type_name)).
Proof.
  intros Hl Ht.
  unfold update_label_count, decrement_label_count, update_type_count,
    decrement_type_count.
  repeat split;
    (apply rewrite_labels_nonneg || apply rewrite_types_nonneg);
    auto; intros n Hn; lia.
Qed.

(** Counting in and then out again, on the rows of a labels file. *)
Lemma scan_labels_back ty lb rows :
  counts_nonneg label_count rows ->
  exists r1 r2,
    scan_labels (fun count => count + 1) ty lb rows = Some r1
    /\ scan_labels (fun count => Z.max 0 (count - 1)) ty lb r1 = Some r2
    /\ counts_nonneg label_count r1
    /\ counts_nonneg label_count r2
    /\ map label_count r2 = map label_count rows
    /\ map (firstn 2) r2 = map (firstn 2) rows.
Proof.
  induction 1 as [|r rows (n & Hn & Hn0) Hrest IH].
  - exists [], []. repeat split; constructor.
  - destruct (label_count_triple r n Hn) as (a & b & c & -> & Hc).
    cbn [scan_labels].
    destruct ((a =? ty)%string && (b =? lb)%string) eqn:Ek.
    + rewrite Hc.
      exists ([a; b; py_str (n + 1)] :: rows),
             ([a; b; py_str (Z.max 0 (n + 1 - 1))] :: rows).
      cbn [scan_labels]. rewrite Ek, py_int_str.
      replace (Z.max 0 (n + 1 - 1)) with n by lia.
      repeat split.
      * constructor; [|exact Hrest]. exists (n + 1).
        split; [apply py_int_str | lia].
      * constructor; [|exact Hrest]. exists n. split; [apply py_int_str | lia].
      * cbn [map label_count]. now rewrite py_int_str, Hc.
    + destruct IH as (r1 & r2 & -> & E2 & H1 & H2 & Hc2 & Hk2).
      exists ([a; b; c] :: r1), ([a; b; c] :: r2).
      cbn [scan_labels option_map]. rewrite Ek, E2. cbn [option_map].
      repeat split.
      * constructor; [now exists n | exact H1].
      * constructor; [now exists n | exact H2].
      * cbn [map]. now rewrite Hc2.
      * cbn [map]. now rewrite Hk2.
Qed.

Lemma scan_types_back ty rows :
  counts_nonneg type_count rows ->
  exists r1 r2,
    scan_types (fun count => count + 1) ty rows = Some r1
    /\ scan_types (fun count => Z.max 0 (count - 1)) ty r1 = Some r2
    /\ counts_nonneg type_count r1
    /\ counts_nonneg type_count r2
    /\ map type_count r2 = map type_count rows
    /\ map (firstn 1) r2 = map (firstn 1) rows.
Proof.
  induction 1 as [|r rows (n & Hn & Hn0) Hrest IH].
  - exists [], []. repeat split; constructor.
  - destruct (type_count_pair r n Hn) as (a & c & -> & Hc).
    cbn [scan_types].
    destruct (a =? ty)%string eqn:Ek.
    + rewrite Hc.
      exists ([a; py_str (n + 1)] :: rows),
             ([a; py_str (Z.max 0 (n + 1 - 1))] :: rows).
      cbn [scan_types]. rewrite Ek, py_int_str.
      replace (Z.max 0 (n + 1 - 1)) with n by lia.
      repeat split.
      * constructor; [|exact Hrest]. exists (n + 1).
        split; [apply py_int_str | lia].
      * constructor; [|exact Hrest]. exists n. split; [apply py_int_str | lia].
      * cbn [map type_count]. now rewrite py_int_str, Hc.
    + destruct IH as (r1 & r2 & -> & E2 & H1 & H2 & Hc2 & Hk2).
      exists ([a; c] :: r1), ([a; c] :: r2).
      cbn [scan_types option_map]. rewrite Ek, E2. cbn [option_map].
      repeat split.
      * constructor; [now exists n | exact H1].
      * constructor; [now exists n | exact H2].
      * cbn [map]. now rewrite Hc2.
      * cbn [map]. now rewrite Hk2.
Qed.

Lemma labels_there_and_back file ty lb :
  counts_nonneg label_count (label_rows file) ->
  map label_count
      (label_rows (decrement_label_count (update_label_count file ty lb) ty lb))
  = map label_count (label_rows file)
  /\ map (firstn 2)
         (label_rows (decrement_label_count (update_label_count file ty lb) ty lb))
     = map (firstn 2) (label_rows file).
Proof.
  intros H. destruct file as [rows|]; [|now split].
  cbn [label_rows] in H.
  destruct (scan_labels_back ty lb _ H) as (r1 & r2 & E1 & E2 & H1 & H2 & Hc & Hk).
  unfold decrement_label_count, update_label_count, rewrite_file.
  rewrite E1, (counted_labels_kept r1 H1), E2. cbn [label_rows].
  now rewrite (counted_labels_kept r2 H2).
Qed.

Lemma types_there_and_back file ty :
  counts_nonneg type_count (type_rows file) ->
  map type_count
      (type_rows (decrement_type_count (update_type_count file ty) ty))
  = map type_count (type_rows file)
  /\ map (firstn 1)
         (type_rows (decrement_type_count (update_type_count file ty) ty))
     = map (firstn 1) (type_rows file).
Proof.
  intros H. destruct file as [rows|]; [|now split].
  cbn [type_rows] in H.
  destruct (scan_types_back ty _ H) as (r1 & r2 & E1 & E2 & H1 & H2 & Hc & Hk).
  unfold decrement_type_count, update_type_count, rewrite_file.
  rewrite E1, (counted_types_kept r1 H1), E2. cbn [type_rows].
  now rewrite (counted_types_kept r2 H2).
Qed.

End CatalogExtras.

Section RoundTrips.
Context {L : PyLib}.
Local Open Scope Z_scope.

(** X11: adding a transaction, under a label that is not the empty
    string, and deleting it straight away (it is the first line of the
    display) gives back the log, with its first line and its rows of five
    fields, and every usage count of the flow's two catalogs, the names and
    the order of their rows included, provided the counts were integers
    that are not negative; the catalogs of the other flow are not
    touched. *)
Theorem add_then_delete_restores (st : store) (flow_type : string)
        (selection : nat) (amount current_date label_name : string)
        (header : row) (rows lrows : list row) :
  transactions_database st = Some (header :: rows) ->
  labels_of flow_type (cats st) = Some lrows ->
  nth_error (available_labels (filter (at_least 3) lrows)) selection
  = Some label_name ->
  label_name <> "" ->
  counts_nonneg label_count (label_rows (labels_of flow_type (cats st))) ->
  counts_nonneg type_count (type_rows (types_of flow_type (cats st))) ->
  transactions_database
    (delete_transaction
       0 (add_transaction flow_type selection amount current_date st))
  = Some (header :: filter (at_least 5) rows)
  /\ map label_count
         (label_rows
            (labels_of flow_type
               (cats (delete_transaction
                        0 (add_transaction flow_type selection amount
                                           current_date st)))))
     = map label_count (label_rows (labels_of flow_type (cats st)))
  /\ map (firstn 2)
         (label_rows
            (labels_of flow_type
               (cats (delete_transaction
                        0 (add_transaction flow_type selection amount
                                           current_date st)))))
     = map (firstn 2) (label_rows (labels_of flow_type (cats st)))
  /\ map type_count
         (type_rows
            (types_of flow_type
               (cats (delete_transaction
                        0 (add_transaction flow_type selection amount
                                           current_date st)))))
     = map type_count (type_rows (types_of flow_type (cats st)))
  /\ map (firstn 1)
         (type_rows
            (types_of flow_type
               (cats (delete_transaction
                        0 (add_transaction flow_type selection amount
                                           current_date st)))))
     = map (firstn 1) (type_rows (types_of flow_type (cats st)))
  /\ other_labels_of flow_type
       (cats (delete_transaction
                0 (add_transaction flow_type selection amount current_date st)))
     = other_labels_of flow_type (cats st)
  /\ other_types_of flow_type
       (cats (delete_transaction
                0 (add_transaction flow_type selection amount current_date st)))
     = other_types_of flow_type (cats st).
Proof.
  intros Hlog Hl Hsel Hname Hlc Htc.
  apply String.eqb_neq in Hname.
  destruct (label_to_type_some _ _ (nth_error_In _ _ Hsel)) as [ty Hty].
  assert (E : delete_transaction
                0 (add_transaction flow_type selection amount current_date st)
              = mkstore (Some (header :: filter (at_least 5) rows))
                        (decrement_usage_counts
                           flow_type label_name ty
                           (update_usage_counts flow_type label_name ty
                                                (cats st)))).
  { unfold add_transaction. rewrite Hl. cbv zeta.
    rewrite Hsel, Hname, Hty, Hlog.
    cbn [append_row app]. unfold delete_transaction.
    cbn [transactions_database cats].
    rewrite filter_app. cbn [filter at_least List.length Nat.leb app].
    rewrite rev_app_distr. cbn [rev app nth_error nth].
    unfold del_at. cbn [firstn skipn app]. now rewrite rev_involutive. }
  rewrite E. cbn [transactions_database cats].
  destruct (decrement_usage_counts_own
              flow_type label_name ty
              (update_usage_counts flow_type label_name ty (cats st)))
    as [-> ->].
  destruct (decrement_usage_counts_frame
              flow_type label_name ty
              (update_usage_counts flow_type label_name ty (cats st)))
    as [-> ->].
  destruct (update_usage_counts_own flow_type label_name ty (cats st))
    as (-> & -> & -> & ->).
  destruct (labels_there_and_back _ ty label_name Hlc) as [-> ->].
  destruct (types_there_and_back _ ty Htc) as [-> ->].
  repeat split.
Qed.

Lemma filter_filter_and {A} (p q : A -> bool) l :
  filter p (filter q l) = filter (fun x => q x && p x) l.
Proof.
  induction l as [|x l IH]; [reflexivity|]. simpl.
  destruct (q x); simpl; [destruct (p x)|]; now rewrite ?IH.
Qed.

Lemma delete_item_labels name file :
  label_rows (delete_item true name file)
  = filter (fun r => negb (nth 1 r "" =? name)%string) (label_rows file).
Proof.
  destruct file as [rows|]; [|reflexivity]. cbn [delete_item label_rows].
  rewrite !filter_filter_and. apply filter_ext. intros r.
  now destruct (at_least 3 r), (nth 1 r "" =? name)%string.
Qed.

Lemma delete_item_types name file :
  type_rows (delete_item false name file)
  = filter (fun r => negb (nth 0 r "" =? name)%string) (type_rows file).
Proof.
  destruct file as [rows|]; [|reflexivity]. cbn [delete_item type_rows].
  rewrite !filter_filter_and. apply filter_ext. intros r.
  now destruct (at_least 2 r), (nth 0 r "" =? name)%string.
Qed.

(** X14: deleting a catalog entry goes by name alone.  From a labels file
    it removes every row of that label, under whatever owning type, and
    from a types file every row of that type; the other rows stay as they
    are and in order, and deleting the same name again changes nothing. *)
Theorem delete_item_by_name (name : string) (file : csv_file) :
  label_rows (delete_item true name file)
  = filter (fun r => negb (nth 1 r "" =? name)%string) (label_rows file)
  /\ Forall (fun r => nth 1 r "" <> name) (label_rows (delete_item true name file))
  /\ delete_item true name (delete_item true name file)
     = delete_item true name file
  /\ type_rows (delete_item false name file)
     = filter (fun r => negb (nth 0 r "" =? name)%string) (type_rows file)
  /\ Forall (fun r => nth 0 r "" <> name) (type_rows (delete_item false name file))
  /\ delete_item false name (delete_item false name file)
     = delete_item false name file.
Proof.
  split; [apply delete_item_labels|]. split; [|split].
  - rewrite delete_item_labels. apply Forall_forall. intros r Hr.
    apply filter_In in Hr as [_ Hr]. apply negb_true_iff in Hr.
    now apply String.eqb_neq.
  - destruct file as [rows|]; [|reflexivity]. cbn [delete_item].
    f_equal. rewrite filter_filter_and. apply filter_ext. intros r.
    now destruct (at_least 3 r && negb (nth 1 r "" =? name)%string).
  - split; [apply delete_item_types|]. split.
    + rewrite delete_item_types. apply Forall_forall. intros r Hr.
      apply filter_In in Hr as [_ Hr]. apply negb_true_iff in Hr.
      now apply String.eqb_neq.
    + destruct file as [rows|]; [|reflexivity]. cbn [delete_item].
      f_equal. rewrite filter_filter_and. apply filter_ext. intros r.
      now destruct (at_least 2 r && negb (nth 0 r "" =? name)%string).
Qed.

(** X15: once a label has been deleted from the catalog of its flow,
    deleting a transaction that carries it finds no row to count down and
    writes the labels back as they were: the transaction goes, the labels
    catalog keeps every row and every count. *)
Theorem delete_after_label_deleted (st : store) (selected : nat)
        (header : row) (rows : list row)
        (flow_type label_name amount type_name : string) (rest : row)
        (file : csv_file) :
  transactions_database st = Some (header :: rows) ->
  nth_error (rev (filter (at_least 5) rows)) selected
  = Some (flow_type :: label_name :: amount :: type_name :: rest) ->
  labels_of flow_type (cats st) = delete_item true label_name file ->
  label_rows (labels_of flow_type (cats (delete_transaction selected st)))
  = label_rows (labels_of flow_type (cats st)).
Proof.
  intros Hlog Hsel Hl. unfold delete_transaction. rewrite Hlog. cbv zeta.
  rewrite Hsel. cbn [nth cats].
  destruct (decrement_usage_counts_own flow_type label_name type_name (cats st))
    as [-> _].
  apply decrement_label_missing. rewrite Hl, delete_item_labels.
  apply Forall_forall. intros r Hr. apply filter_In in Hr as [Hin Hr].
  apply negb_true_iff in Hr.
  unfold label_key. destruct r as [|a [|b r]]; try reflexivity.
  cbn [nth] in Hr. rewrite Hr. apply andb_false_r.
Qed.

End RoundTrips.

(** ** The ranking *)

Section RankingExtras.
Context {L : PyLib}.
Local Open Scope float_scope.

Lemma dict_add_keys_order k a d :
  map fst (dict_add k a d)
  = if in_dec string_dec k (map fst d) then map fst d else map fst d ++ [k].
Proof.
  induction d as [|[k0 v] d IH]; [reflexivity|]. cbn [dict_add map fst].
  destruct (k0 =? k)%string eqn:E.
  - apply String.eqb_eq in E. subst k0. cbn [map fst].
    destruct (in_dec string_dec k (k :: map fst d)) as [_|Hn]; [reflexivity|].
    destruct Hn. now left.
  - apply String.eqb_neq in E. cbn [map fst]. rewrite IH.
    destruct (in_dec string_dec k (map fst d)) as [Hin|Hn];
      destruct (in_dec string_dec k (k0 :: map fst d)) as [Hin'|Hn'];
      try reflexivity.
    + destruct Hn'. now right.
    + destruct Hin' as [E'|Hin']; [congruence | contradiction].
Qed.

Lemma first_occurrences_snoc l k :
  first_occurrences (l ++ [k])
  = if in_dec string_dec k l then first_occurrences l
    else first_occurrences l ++ [k].
Proof.
  unfold first_occurrences. rewrite rev_app_distr. cbn [rev app nodup].
  destruct (in_dec string_dec k (rev l)) as [Hin|Hn];
    destruct (in_dec string_dec k l) as [Hin'|Hn']; try reflexivity.
  - destruct Hn'. now apply in_rev.
  - destruct Hn. now apply in_rev in Hin'.
Qed.

Lemma first_occurrences_In l k : In k (first_occurrences l) <-> In k l.
Proof.
  unfold first_occurrences. rewrite <- in_rev, nodup_In. symmetry. apply in_rev.
Qed.

(** The dict lists the groups in the order in which their names first occur
    among the transactions of the flow. *)
Lemma group_loop_order key flow_type ts :
  map fst (fst (group_loop key flow_type ts))
  = first_occurrences (map (fun t => nth key t "") (filter (matching flow_type) ts)).
Proof.
  induction ts as [|t ts IH] using rev_ind; [reflexivity|].
  rewrite group_loop_snoc, group_step_matching, filter_snoc.
  destruct (matching flow_type t); cbn [fst].
  - rewrite map_app. cbn [map].
    rewrite dict_add_keys_order, first_occurrences_snoc, IH.
    destruct (in_dec string_dec (nth key t "") (first_occurrences _)) as [Hin|Hn];
      destruct (in_dec string_dec (nth key t "") (map _ _)) as [Hin'|Hn'];
      try reflexivity.
    + destruct Hn'. now apply first_occurrences_In.
    + destruct Hn. now apply first_occurrences_In.
  - now rewrite app_nil_r.
Qed.

Lemma dict_as_map d :
  NoDup (map fst d) -> d = map (fun k => (k, dict_get k d)) (map fst d).
Proof.
  induction d as [|[k0 v] d IH]; [reflexivity|]. intros H.
  inversion H as [|? ? Hnot Hd]; subst. cbn [map fst dict_get].
  rewrite String.eqb_refl. f_equal. rewrite (IH Hd) at 1.
  apply map_ext_in. intros k Hk.
  destruct (k0 =? k)%string eqn:E; [|reflexivity].
  apply String.eqb_eq in E. now subst k0.
Qed.

Lemma group_loop_in_order key flow_type ts :
  fst (group_loop key flow_type ts)
  = map (fun name => (name, group_total key flow_type ts name))
        (first_occurrences
           (map (fun t => nth key t "") (filter (matching flow_type) ts))).
Proof.
  rewrite (dict_as_map _ (group_loop_NoDup key flow_type ts)) at 1.
  rewrite group_loop_order. apply map_ext. intros k.
  now rewrite group_loop_get.
Qed.

Lemma names_of_stats key ts flow_type :
  names_of (group_stats key ts flow_type)
  = map fst (firstn 5 (ranking key flow_type ts)).
Proof.
  rewrite group_stats_eq. unfold names_of. rewrite map_map.
  now apply map_ext.
Qed.

Lemma pairs_of_stats key ts flow_type :
  map (fun s => (stat_name s, stat_total s)) (group_stats key ts flow_type)
  = firstn 5 (ranking key flow_type ts).
Proof.
  rewrite group_stats_eq, map_map. cbn [stat_name stat_total fst snd].
  unfold ranking. rewrite <- map_id. apply map_ext. now intros [k v].
Qed.

Lemma NoDup_firstn {A} n (l : list A) : NoDup l -> NoDup (firstn n l).
Proof.
  intros H. rewrite <- (firstn_skipn n l) in H.
  now apply NoDup_app_remove_r in H.
Qed.

(** X16: no name comes twice in what a statistics function returns, and
    every name returned is the label (the type) of a transaction of the
    flow with an amount [float] accepts. *)
Theorem ranking_names_distinct (transactions : list row) (flow_type : string) :
  NoDup (names_of (calculate_label_stats transactions flow_type))
  /\ NoDup (names_of (calculate_type_stats transactions flow_type))
  /\ (forall name,
         In name (names_of (calculate_label_stats transactions flow_type)) ->
         exists t, In t transactions /\ matching flow_type t = true /\
                   nth 1 t "" = name)
  /\ (forall name,
         In name (names_of (calculate_type_stats transactions flow_type)) ->
         exists t, In t transactions /\ matching flow_type t = true /\
                   nth 3 t "" = name).
Proof.
  unfold calculate_label_stats, calculate_type_stats.
  assert (Hnd : forall key,
             NoDup (names_of (group_stats key transactions flow_type))).
  { intros key. rewrite names_of_stats, <- firstn_map. apply NoDup_firstn.
    unfold ranking.
    eapply Permutation_NoDup;
      [apply Permutation_map, Permutation_sym, py_sorted_perm|].
    apply group_loop_NoDup. }
  assert (Hin : forall key name,
             In name (names_of (group_stats key transactions flow_type)) ->
             exists t, In t transactions /\ matching flow_type t = true /\
                       nth key t "" = name).
  { intros key name. rewrite names_of_stats, <- firstn_map. intros H.
    assert (H' : In name (map fst (ranking key flow_type transactions))).
    { rewrite <- (firstn_skipn 5 (map fst _)). apply in_or_app. now left. }
    unfold ranking in H'.
    apply (Permutation_in _ (Permutation_map fst (py_sorted_perm _))) in H'.
    apply group_loop_keys, in_map_iff in H'. destruct H' as (t & Hk & Ht).
    apply filter_In in Ht as [Ht Hm]. now exists t. }
  repeat split; auto.
Qed.

(** X17: when no group total is a NaN the ranking is in descending order
    of total and ties are broken by first occurrence: for every amount, the
    groups of that total come in the ranking in the order in which their
    names first occur among the transactions of the flow.  The names and
    totals returned are the first five of the ranking. *)
Theorem ranking_ties_by_first_occurrence (transactions : list row)
        (flow_type : string) (key : nat) (v : float) :
  no_nan (groups key flow_type transactions) ->
  filter (tied v) (ranking key flow_type transactions)
  = filter (tied v)
           (map (fun name => (name, group_total key flow_type transactions name))
                (first_occurrences
                   (map (fun t => nth key t "")
                        (filter (matching flow_type) transactions))))
  /\ descending (ranking key flow_type transactions)
  /\ map (fun s => (stat_name s, stat_total s))
         (calculate_label_stats transactions flow_type)
     = firstn 5 (ranking 1 flow_type transactions)
  /\ map (fun s => (stat_name s, stat_total s))
         (calculate_type_stats transactions flow_type)
     = firstn 5 (ranking 3 flow_type transactions).
Proof.
  intros Hnn.
  assert (Hd : no_nan (fst (group_loop key flow_type transactions))).
  { eapply Permutation_Forall;
      [apply Permutation_sym, group_loop_groups | exact Hnn]. }
  split; [|split; [|split; apply pairs_of_stats]].
  - unfold ranking. rewrite (py_sorted_stable _ v Hd).
    now rewrite group_loop_in_order.
  - unfold ranking. now apply py_sorted_descending.
Qed.

End RankingExtras.

(** * More examples *)

Section MoreExamples.
Import Sample.
Local Open Scope Z_scope.

(** At noon of 03/01/2025, two days after the first transaction, the last
    seven days count min(7, 2) + 1 = 3 days. *)
Lemma rolling_day_count_witness :
  get_days_in_period (Some (header :: [rent; refund])) noon "Last 7 days" []
  = Returned (Z.max 1 (Z.min 7 (ordinal noon - 739252) + 1))
  /\ 1 <= Z.max 1 (Z.min 7 (ordinal noon - 739252) + 1) <= 7 + 1
  /\ (739252 <= ordinal noon - 7 ->
      get_days_in_period (Some (header :: [rent; refund])) noon "Last 7 days" []
      = Returned (7 + 1)).
Proof.
  apply (rolling_day_count noon "Last 7 days" 7 739252 header [rent; refund] []).
  - unfold wf_datetime, US_PER_DAY. simpl. lia.
  - reflexivity.
  - split; [now left|]. intros x [<- | [<- | []]]; reflexivity.
Defined.

Lemma rolling_window_days_witness :
  exists ts,
    get_filtered_transactions (Some (header :: [rent; bus])) noon "Last 7 days"
    = Returned ts
    /\ (forall t,
           In t ts <->
           In t [rent; bus] /\ at_least 5 t = true /\
           exists d, row_day t = Some d /\
                     (ordinal noon - 7 < d \/
                      (d = ordinal noon - 7 /\ micros noon <= 0)))
    /\ (0 < micros noon ->
        forall t,
          In t ts <->
          In t [rent; bus] /\ at_least 5 t = true /\
          exists d, row_day t = Some d /\ ordinal noon - 7 + 1 <= d).
Proof.
  apply (rolling_window_days noon "Last 7 days" 7 header [rent; bus]).
  reflexivity.
Defined.

(** From 01/01/2025 to 03/01/2025: three days. *)
Lemma all_time_calendar_days_witness :
  get_filtered_transactions (Some (header :: [rent; refund])) noon "All Time"
  = Returned (filter (at_least 5) [rent; refund])
  /\ get_days_in_period (Some (header :: [rent; refund])) noon "All Time"
                        (filter (at_least 5) [rent; refund])
     = Returned (739254 - 739252 + 1)
  /\ 739252 <= 739254.
Proof.
  apply (all_time_calendar_days noon noon header [rent; refund] 739252 739254).
  - split; [now left|]. intros x [<- | [<- | []]]; reflexivity.
  - split; [right; now left|]. intros x [<- | [<- | []]]; reflexivity.
Defined.

Lemma general_flow_returns_witness :
  exists ts days,
    get_filtered_transactions log noon "All Time" = Returned ts
    /\ get_days_in_period log noon "All Time" ts = Returned days
    /\ 1 <= days
    /\ update_general_flow log noon noon "All Time"
       = Returned
           (mkflow (fst (calculate_totals ts)) (snd (calculate_totals ts))
                   (snd (calculate_totals ts) - fst (calculate_totals ts))%float
                   (fst (calculate_totals ts) / py_float_of_int days)%float
                   (snd (calculate_totals ts) / py_float_of_int days)%float
                   ((snd (calculate_totals ts) - fst (calculate_totals ts))
                    / py_float_of_int days)%float).
Proof.
  apply (general_flow_returns log noon noon "All Time"). discriminate.
Defined.

(** Expenses of 100 and -50 over three days, no income. *)
Example general_flow_of_the_log :
  update_general_flow log noon noon "All Time"
  = Returned (mkflow 50 0 (-50) (50 / 3) 0 (-50 / 3))%float.
Proof. vm_compute. reflexivity. Qed.

Lemma dashboard_is_all_time_witness :
  exists balance colour g,
    update_balance log = Returned (balance, colour)
    /\ update_general_flow log noon noon "All Time" = Returned g
    /\ balance = total_balance g
    /\ colour = (if (0 <=? balance)%float then "darkgreen" else "darkred")
    /\ (is_nan balance = true -> colour = "darkred").
Proof.
  apply (dashboard_is_all_time log noon noon). discriminate.
Defined.

(** With an amount nan in the log the balance is a NaN, shown dark red. *)
Example nan_balance_is_dark_red :
  update_balance (Some [header; rent_nan; salary]) = Returned (nan, "darkred").
Proof. vm_compute. reflexivity. Qed.

(** Line 1 of the display is the older of the two transactions, row 0 of
    the file. *)
Lemma delete_removes_selected_witness :
  ((1 < List.length (filter (at_least 5) [rent; lunch]))%nat ->
   transactions_database (delete_transaction 1 files)
   = Some (header ::
           del_at (List.length (filter (at_least 5) [rent; lunch]) - 1 - 1)
                  (filter (at_least 5) [rent; lunch]))
   /\ nth_error (filter (at_least 5) [rent; lunch])
                (List.length (filter (at_least 5) [rent; lunch]) - 1 - 1)
      = nth_error (rev (filter (at_least 5) [rent; lunch])) 1
   /\ List.length (del_at (List.length (filter (at_least 5) [rent; lunch]) - 1 - 1)
                          (filter (at_least 5) [rent; lunch]))
      = (List.length (filter (at_least 5) [rent; lunch]) - 1)%nat)
  /\ ((List.length (filter (at_least 5) [rent; lunch]) <= 1)%nat ->
      delete_transaction 1 files = files).
Proof.
  apply (delete_removes_selected files 1 header [rent; lunch]). reflexivity.
Defined.

Example delete_second_line :
  transactions_database (delete_transaction 1 files) = Some [header; lunch].
Proof. reflexivity. Qed.


Lemma add_then_delete_restores_witness :
  transactions_database
    (delete_transaction 0 (add_transaction "Expense" 0 "20.0" "05/01/2025" files))
  = Some (header :: filter (at_least 5) [rent; lunch])
  /\ map (firstn 1)
         (type_rows
            (types_of "Expense"
               (cats (delete_transaction
                        0 (add_transaction "Expense" 0 "20.0" "05/01/2025"
                                           files)))))
     = map (firstn 1) (type_rows (types_of "Expense" (cats files))).
Proof.
  destruct (add_then_delete_restores
              files "Expense" 0 "20.0" "05/01/2025" "Rent" header [rent; lunch]
              [["Home"; "Rent"; "3"]; ["Home"; "Rent"; "7"];
               ["Meals"; "Food"; "1"]])
    as (Hlog & _ & _ & _ & Hnames & _);
    try reflexivity; try discriminate;
    [ apply Forall_forall; intros r Hr; vm_compute in Hr;
      destruct Hr as [<- | [<- | [<- | []]]];
      eexists; (split; [reflexivity | vm_compute; discriminate]) ..
    | split; [exact Hlog | exact Hnames] ].
Defined.

Lemma first_transaction_is_lost_witness :
  exists type_name,
    transactions_database
      (add_transaction "Expense" 0 "20.0" "05/01/2025" (mkstore None (cats files)))
    = Some [["Expense"; "Rent"; "20.0"; type_name; "05/01/2025"]]
    /\ (forall now period,
           get_filtered_transactions
             (transactions_database
                (add_transaction "Expense" 0 "20.0" "05/01/2025"
                                 (mkstore None (cats files))))
             now period
           = Returned [])
    /\ calculate_all_time_totals
         (transactions_database
            (add_transaction "Expense" 0 "20.0" "05/01/2025"
                             (mkstore None (cats files))))
       = Returned (0%float, 0%float)
    /\ (forall selected,
           delete_transaction
             selected (add_transaction "Expense" 0 "20.0" "05/01/2025"
                                       (mkstore None (cats files)))
           = add_transaction "Expense" 0 "20.0" "05/01/2025"
                             (mkstore None (cats files))).
Proof.
  apply (first_transaction_is_lost
           (mkstore None (cats files)) "Expense" 0 "20.0" "05/01/2025" "Rent"
           [["Home"; "Rent"; "3"]; ["Home"; "Rent"; "7"]; ["Meals"; "Food"; "1"]]);
    try reflexivity; discriminate.
Defined.

Lemma counts_stay_nonneg_witness :
  counts_nonneg label_count (label_rows (update_label_count labels "Home" "Rent"))
  /\ counts_nonneg label_count
       (label_rows (decrement_label_count labels "Home" "Rent"))
  /\ counts_nonneg type_count (type_rows (update_type_count types "Home"))
  /\ counts_nonneg type_count (type_rows (decrement_type_count types "Home")).
Proof.
  apply (counts_stay_nonneg labels types "Home" "Rent");
    apply Forall_forall; intros r Hr; vm_compute in Hr;
    destruct Hr as [<- | [<- | [<- | []]]];
    eexists; (split; [reflexivity | vm_compute; discriminate]).
Defined.

(** With the Rent rows gone from the labels, deleting the rent transaction
    leaves the one label that is left as it is. *)
Lemma delete_after_label_deleted_witness :
  label_rows
    (labels_of "Expense"
       (cats (delete_transaction
                1 (mkstore (Some [header; rent; lunch])
                           (mkcats (delete_item true "Rent" labels)
                                   types None None)))))
  = label_rows
      (labels_of "Expense"
         (cats (mkstore (Some [header; rent; lunch])
                        (mkcats (delete_item true "Rent" labels)
                                types None None)))).
Proof.
  apply (delete_after_label_deleted
           (mkstore (Some [header; rent; lunch])
                    (mkcats (delete_item true "Rent" labels) types None None))
           1 header [rent; lunch] "Expense" "Rent" "100" "Home" ["01/01/2025"]
           labels);
    reflexivity.
Defined.

Example delete_label_of_every_type :
  delete_item true "Rent"
              (Some [["Home"; "Rent"; "3"]; ["Work"; "Rent"; "2"];
                     ["Meals"; "Food"; "1"]])
  = Some [["Meals"; "Food"; "1"]].
Proof. reflexivity. Qed.

(** Rent and Food both total 100: Rent, which comes first in the log,
    comes first in the ranking. *)
Lemma ranking_ties_by_first_occurrence_witness :
  filter (tied 100%float) (ranking 1 "Expense" [rent; lunch; bus; dinner])
  = filter (tied 100%float)
           (map (fun name =>
                   (name, group_total 1 "Expense" [rent; lunch; bus; dinner] name))
                (first_occurrences
                   (map (fun t => nth 1 t "")
                        (filter (matching "Expense")
                                [rent; lunch; bus; dinner]))))
  /\ descending (ranking 1 "Expense" [rent; lunch; bus; dinner]).
Proof.
  destruct (ranking_ties_by_first_occurrence
              [rent; lunch; bus; dinner] "Expense" 1 100%float)
    as (Hties & Hdesc & _).
  - unfold no_nan. vm_compute. repeat constructor.
  - split; [exact Hties | exact Hdesc].
Defined.

Example ranking_with_a_tie :
  map stat_name (calculate_label_stats [rent; lunch; bus; dinner] "Expense")
  = ["Rent"; "Food"; "Bus"].
Proof. vm_compute. reflexivity. Qed.

End MoreExamples.
